(** * Yad2 car monitor: a shallow embedding of [yad2_monitor.py]

    The monitor loads a small JSON state, reads the total-results counter of
    a listing page through a browser session, compares it with the stored
    total, posts a Telegram message and saves the state again.

    Conventions of the embedding.
    - A Python [str] is a list of Unicode code points ([pystr]).  Selector
      expressions and the configured URL are only handed to the browser and
      to templates, so they stay Rocq byte strings.
    - Everything the outside world decides (what the page shows, what the
      Telegram API answers, whether the state file can be written, what the
      clock reads) is an explicit oracle: [WebDriver], [Env].
    - A Python exception is the [Raise] case of [result]; [try]/[except] is a
      [match] on it.
    - The state file is seen through [json.load]: a document has the four
      keys that [save_data] writes.
    - A Telegram message is its template together with the interpolated
      values.
    - Console output ([print]) is not modelled. *)

From Stdlib Require Import List ZArith NArith Bool Arith Lia String Ascii.
From Stdlib Require Import DecimalString.
Import ListNotations.
Local Open Scope Z_scope.

(** ** Strings and exceptions *)

Definition codepoint := N.
Definition pystr := list codepoint.

(** The code points of an ASCII literal. *)
Definition py (s : string) : pystr :=
  map N_of_ascii (list_ascii_of_string s).

(** Truth value of a [str]: the empty string is false. *)
Definition truthy (s : pystr) : bool :=
  match s with [] => false | _ :: _ => true end.

Fixpoint pystr_prefix (p s : pystr) : bool :=
  match p, s with
  | [], _ => true
  | a :: p', b :: s' => N.eqb a b && pystr_prefix p' s'
  | _ :: _, [] => false
  end.

(** [p in s] for two strings. *)
Fixpoint pystr_contains (p s : pystr) : bool :=
  pystr_prefix p s ||
  match s with
  | [] => false
  | _ :: s' => pystr_contains p s'
  end.

(** The outcome of code that may raise; the payload of [Raise] is [str(e)]. *)
Inductive result (A : Type) : Type :=
| Ok (a : A)
| Raise (e : pystr).
Arguments Ok {A} a.
Arguments Raise {A} e.

Definition bind {A B} (r : result A) (k : A -> result B) : result B :=
  match r with
  | Ok a => k a
  | Raise e => Raise e
  end.

Notation "x <- r ;; k" := (bind r (fun x => k))
  (at level 61, r at next level, right associativity).

(** What the monitor relies on of the interpreter: its character tables
    and its limit on the conversion of digit strings. *)
Class Unicode := {
  (** decimal value of a character of category Nd: what [\d] matches and
      what [int()] reads *)
  to_decimal : codepoint -> option Z;
  (** [str.isdigit] *)
  isdigit : codepoint -> bool;
  (** white space: [\s] and [str.strip] *)
  isspace : codepoint -> bool;
  (** [sys.get_int_max_str_digits()]: 4300 unless configured, 0 for no limit *)
  int_max_str_digits : nat
}.

(** The ASCII part of the tables, with the default limit. *)
Definition ascii_to_decimal (c : codepoint) : option Z :=
  if (N.leb 48 c && N.leb c 57)%bool then Some (Z.of_N c - 48) else None.

Definition ascii_isspace (c : codepoint) : bool :=
  (N.leb 9 c && N.leb c 13)%bool || N.eqb c 32 ||
  (N.leb 28 c && N.leb c 31)%bool.

Definition ascii_tables : Unicode := {|
  to_decimal := ascii_to_decimal;
  isdigit := fun c => match ascii_to_decimal c with Some _ => true | None => false end;
  isspace := ascii_isspace;
  int_max_str_digits := 4300
|}.

(** ** Regular expressions of the counter extractor *)

Section Regex.
Context {U : Unicode}.

(** [\d] *)
Definition re_digit (c : codepoint) : bool :=
  match to_decimal c with Some _ => true | None => false end.

(** [re.findall(r'\d+', text)]: the maximal digit runs, left to right.
    [cur] is the run being read. *)
Fixpoint findall_from (cur : pystr) (text : pystr) : list pystr :=
  match text with
  | [] => match cur with [] => [] | _ => [cur] end
  | c :: rest =>
      if re_digit c then findall_from (cur ++ [c]) rest
      else match cur with
           | [] => findall_from [] rest
           | _ => cur :: findall_from [] rest
           end
  end.

Definition findall_digits (text : pystr) : list pystr := findall_from [] text.

(** The value that [int(s)] reads in a string of decimal digits. *)
Definition int_of (s : pystr) : Z :=
  fold_left
    (fun acc c => 10 * acc + match to_decimal c with Some d => d | None => 0 end)
    s 0.

(** [int(s)] refuses a string of more than 640 digits that exceeds the
    limit of the interpreter, when there is a limit. *)
Definition int_refuses (s : pystr) : bool :=
  ((640 <? List.length s) && (0 <? int_max_str_digits) &&
   (int_max_str_digits <? List.length s))%nat.

(** [int(s)] on a string of decimal digits: the value, or [ValueError]. *)
Definition py_int (s : pystr) : result Z :=
  if int_refuses s
  then Raise (py "Exceeds the limit for integer string conversion")
  else Ok (int_of s).

(** [str.strip()] *)
Fixpoint lstrip (s : pystr) : pystr :=
  match s with
  | c :: rest => if isspace c then lstrip rest else s
  | [] => []
  end.

Definition strip (s : pystr) : pystr := rev (lstrip (rev (lstrip s))).

(** Keywords of the page-source pattern, as spelled in the source file. *)
Definition keywords : list pystr :=
  [ [215; 170; 215; 8226; 215; 166; 215; 215; 8226; 215; 170];
    [215; 215; 8226; 215; 8220; 215; 162; 215; 8226; 215; 170];
    [215; 160; 215; 215; 166; 215; 215; 8226];
    [215; 170; 215; 8226; 215; 166; 215; 215; 8221] ]%N.

(** The tail [\s*(k1|k2|k3|k4)] of the pattern at the head of [s]: some
    number of the leading white-space characters, then one keyword. *)
Fixpoint spaces_then_keyword (s : pystr) : bool :=
  existsb (fun k => pystr_prefix k s) keywords ||
  match s with
  | c :: rest => isspace c && spaces_then_keyword rest
  | [] => false
  end.

(** The number of leading digits of [s], at most [n]. *)
Fixpoint leading_digits (n : nat) (s : pystr) : nat :=
  match n, s with
  | S n', c :: rest => if re_digit c then S (leading_digits n' rest) else 0
  | _, _ => 0
  end.

(** [(\d{1,6})] anchored at the head of [s], greedy with backtracking:
    try [n] digits, then fewer, never less than one. *)
Fixpoint group_of (n : nat) (s : pystr) : option pystr :=
  match n with
  | O => None
  | S n' =>
      if spaces_then_keyword (skipn n s) then Some (firstn n s)
      else group_of n' s
  end.

Definition match_here (s : pystr) : option pystr :=
  group_of (leading_digits 6 s) s.

(** [re.search(pattern, src)]: group 1 of the leftmost match. *)
Fixpoint re_search_counter (src : pystr) : option pystr :=
  match match_here src with
  | Some g => Some g
  | None =>
      match src with
      | [] => None
      | _ :: rest => re_search_counter rest
      end
  end.

End Regex.

(** ** The browser session

    What Selenium answers is an oracle.  A located element offers its
    rendered text, the text of a descendant found by a query, and the [href]
    of its first anchor; each access may raise. *)

Inductive By := CSS_SELECTOR | XPATH | TAG_NAME.

Record WebElement := {
  (** [element.text] *)
  elem_text : result pystr;
  (** [element.find_element(By, sel).text] *)
  elem_find_text : By -> string -> result pystr;
  (** [element.find_element(By.TAG_NAME, "a").get_attribute("href")];
      [None] is Python's [None] *)
  elem_find_href : result (option pystr)
}.

Record WebDriver := {
  (** [driver.implicitly_wait(10)] *)
  driver_implicitly_wait : result unit;
  (** [driver.get(url)] *)
  driver_get : result unit;
  (** [WebDriverWait(driver, 20).until(EC.presence_of_element_located((By, sel)))] *)
  driver_wait : By -> string -> result WebElement;
  (** [driver.find_elements(By, sel)] *)
  driver_find_elements : By -> string -> result (list WebElement);
  (** [driver.driver_page_source] *)
  driver_page_source : result pystr
}.

(** ** Counter extractor: [get_total_results] *)

Definition total_selectors : list string :=
  [ "span[data-testid='total-items']"; "span[class*='totalItems']"; "span.results-feed_sortAndTotalBox__lFFyS"; "span[class*='sortAndTotalBox']";
    "span[class*='totalResults']"; "div[class*='totalBox'] span";
    "//span[contains(text(),'× ××¦××•')]";
    "//span[contains(text(),'××•×“×¢×•×ª')]" ]%string.

Definition possible_xpath : string :=
  "//span[contains(text(),'× ××¦××•') or contains(text(),'××•×“×¢×•×ª')]".

Definition candidates_xpath : string :=
  "//*[contains(text(),'×ª×•×¦××•×ª') or contains(text(),'××•×“×¢×•×ª') or contains(text(),'× ××¦××•') or contains(text(),'×ª×•×¦××”')]".

(** [selector.startswith('//')] picks the locator strategy. *)
Definition by_of (selector : string) : By :=
  if String.prefix "//" selector then XPATH else CSS_SELECTOR.

Section Extractor.
Context {U : Unicode}.

(** Lines 104-118: the first selector whose element is present and whose
    text can be read gives [total_text]; any exception moves on to the next
    selector.  [None] is Python's [None]. *)
Fixpoint first_located (page : WebDriver) (selectors : list string) : option pystr :=
  match selectors with
  | [] => None
  | selector :: rest =>
      match (element <- driver_wait page (by_of selector) selector ;;
             elem_text element) with
      | Ok t => Some t
      | Raise _ => first_located page rest
      end
  end.

(** Lines 123-128: the first element whose text holds a digit. *)
Fixpoint first_with_digit (elems : list WebElement) : result (option pystr) :=
  match elems with
  | [] => Ok None
  | elem :: rest =>
      text <- elem_text elem ;;
      if existsb isdigit text then Ok (Some text) else first_with_digit rest
  end.

(** [if not total_text] on an optional string. *)
Definition text_found (total_text : option pystr) : bool :=
  match total_text with
  | Some t => truthy t
  | None => false
  end.

(** Lines 104-128: the text in which the counter is read. *)
Definition find_total_text (page : WebDriver) : result (option pystr) :=
  let total_text := first_located page total_selectors in
  if text_found total_text then Ok total_text
  else
    possible_elements <- driver_find_elements page XPATH possible_xpath ;;
    found <- first_with_digit possible_elements ;;
    Ok (match found with
        | Some t => Some t
        | None => total_text
        end).

(** Lines 130-138: the first number of the text.  [Ok None] means that the
    function does not return here; [int] may raise. *)
Definition extract_total (total_text : option pystr) : result (option Z) :=
  match total_text with
  | Some t =>
      if truthy t then
        match findall_digits t with
        | first :: _ => total <- py_int first ;; Ok (Some total)
        | [] => Ok None
        end
      else Ok None
  | None => Ok None
  end.

(** Lines 144-153: the first candidate with a number in its stripped text. *)
Fixpoint first_candidate_total (elems : list WebElement) : result (option Z) :=
  match elems with
  | [] => Ok None
  | elem :: rest =>
      t <- elem_text elem ;;
      let text := strip t in
      if negb (truthy text) then first_candidate_total rest
      else
        match findall_digits text with
        | first :: _ => total <- py_int first ;; Ok (Some total)
        | [] => first_candidate_total rest
        end
  end.

(** Lines 159-167: the pattern searched in the page source. *)
Definition source_total (page : WebDriver) : option Z :=
  match driver_page_source page with
  | Ok src =>
      match re_search_counter src with
      | Some g =>
          match py_int g with
          | Ok total => Some total
          | Raise _ => None
          end
      | None => None
      end
  | Raise _ => None
  end.

(** The body of the outer [try] of [get_total_results]. *)
Definition get_total_results_body (page : WebDriver) : result (option Z) :=
  _ <- driver_get page ;;
  total_text <- find_total_text page ;;
  found <- extract_total total_text ;;
  match found with
  | Some total => Ok (Some total)
  | None =>
      match (candidates <- driver_find_elements page XPATH candidates_xpath ;;
             first_candidate_total candidates) with
      | Ok (Some total) => Ok (Some total)
      | Ok None | Raise _ => Ok (source_total page)
      end
  end.

(** [get_total_results]: [None] when the counter cannot be read, also when
    anything raised or when there is no session ([driver] is [None]). *)
Definition get_total_results (driver : option WebDriver) : option Z :=
  match driver with
  | Some page =>
      match get_total_results_body page with
      | Ok r => r
      | Raise _ => None
      end
  | None => None
  end.

End Extractor.

(** ** Listing extractor: [get_new_listings] *)

(** The [car_info] dictionary of one listing; an absent key is [None]. *)
Record Car := {
  car_title : option pystr;
  car_price : option pystr;
  car_link : option pystr;
  car_details : pystr
}.

Definition listing_selectors : list string :=
  [ "div[data-testid='feed-item']"; "div.feed-item_feedItem__Hn7A7";
    "div[class*='feedItem']"; "article[class*='item']";
    "div.ad-container" ]%string.

Definition title_selectors : list string :=
  [ "h3"; "h4"; "[class*='title']"; "a[class*='title']" ]%string.

Definition price_selectors : list string :=
  [ "[class*='price']"; "span[class*='price']"; "[data-testid*='price']" ]%string.

(** The currency sign of line 221, as spelled in the source file. *)
Definition currency_sign : pystr := [226; 8218; 170]%N.

Section Listings.
Context {U : Unicode}.

(** Lines 193-198: the elements of the first selector that finds any; the
    result of the last query when none does. *)
Fixpoint find_listings (page : WebDriver) (selectors : list string)
    (listings : list WebElement) : result (list WebElement) :=
  match selectors with
  | [] => Ok listings
  | selector :: rest =>
      found <- driver_find_elements page CSS_SELECTOR selector ;;
      match found with
      | _ :: _ => Ok found
      | [] => find_listings page rest found
      end
  end.

(** Lines 206-214: the first non-empty title. *)
Fixpoint find_title (listing : WebElement) (selectors : list string) : option pystr :=
  match selectors with
  | [] => None
  | sel :: rest =>
      match elem_find_text listing CSS_SELECTOR sel with
      | Ok title => if truthy title then Some title else find_title listing rest
      | Raise _ => find_title listing rest
      end
  end.

(** Lines 217-225: the first price text with the currency sign or a digit. *)
Fixpoint find_price (listing : WebElement) (selectors : list string) : option pystr :=
  match selectors with
  | [] => None
  | sel :: rest =>
      match elem_find_text listing CSS_SELECTOR sel with
      | Ok price =>
          if truthy price &&
             (pystr_contains currency_sign price || existsb isdigit price)
          then Some price
          else find_price listing rest
      | Raise _ => find_price listing rest
      end
  end.

(** Lines 228-233 *)
Definition find_link (listing : WebElement) : option pystr :=
  match elem_find_href listing with
  | Ok (Some link) => if truthy link then Some link else None
  | Ok None | Raise _ => None
  end.

(** Lines 203-240: the body of the per-listing [try]. *)
Definition car_of (listing : WebElement) : result Car :=
  let title := find_title listing title_selectors in
  let price := find_price listing price_selectors in
  let link := find_link listing in
  text <- elem_text listing ;;
  Ok {| car_title := title; car_price := price; car_link := link;
        car_details := firstn 300 text |}.

(** Lines 201-244: a listing whose extraction raises is skipped. *)
Fixpoint cars_of (listings : list WebElement) : list Car :=
  match listings with
  | [] => []
  | listing :: rest =>
      match car_of listing with
      | Ok car_info => car_info :: cars_of rest
      | Raise _ => cars_of rest
      end
  end.

Definition get_new_listings (driver : option WebDriver) : list Car :=
  match driver with
  | Some page =>
      match find_listings page listing_selectors [] with
      | Ok listings => cars_of (firstn 5 listings)
      | Raise _ => []
      end
  | None => []
  end.

End Listings.

(** ** Clock *)

Record datetime := {
  year : N; month : N; day : N;
  hour : N; minute : N; second : N; microsecond : N
}.

Fixpoint zeros (n : nat) : string :=
  match n with
  | O => EmptyString
  | S k => String "0" (zeros k)
  end.

Definition zero_pad (width : nat) (s : string) : string :=
  zeros (width - String.length s) ++ s.

(** [%0<width>d] *)
Definition decimal (width : nat) (n : N) : string :=
  zero_pad width (NilZero.string_of_uint (N.to_uint n)).

Definition date_iso (d : datetime) : string :=
  decimal 4 (year d) ++ "-" ++ decimal 2 (month d) ++ "-" ++ decimal 2 (day d).

Definition time_iso (d : datetime) : string :=
  decimal 2 (hour d) ++ ":" ++ decimal 2 (minute d) ++ ":" ++ decimal 2 (second d).

(** [d.isoformat()] of a naive datetime *)
Definition isoformat (d : datetime) : string :=
  date_iso d ++ "T" ++ time_iso d ++
  (if N.eqb (microsecond d) 0 then "" else "." ++ decimal 6 (microsecond d)).

(** [d.strftime('%H:%M')] *)
Definition strftime_HM (d : datetime) : string :=
  decimal 2 (hour d) ++ ":" ++ decimal 2 (minute d).

(** [d.strftime('%H:%M - %d/%m/%Y')] *)
Definition strftime_HM_dmY (d : datetime) : string :=
  strftime_HM d ++ " - " ++
  decimal 2 (day d) ++ "/" ++ decimal 2 (month d) ++ "/" ++ decimal 4 (year d).

(** ** Stored state *)

Record HistoryEntry := {
  timestamp : string;
  total : Z;
  (** the key ['change'] is present only on entries of detected changes *)
  change : option Z
}.

Record MonitorState := {
  last_total : Z;
  last_check : option string;
  history : list HistoryEntry;
  seen_car_ids : list pystr
}.

(** The state file, seen through [os.path.exists], [open] and [json.load]:
    absent, present but not readable as JSON, or a document.  A document is
    taken to have the shape that [save_data] writes. *)
Inductive File :=
| Missing
| Unparsable
| Document (doc : MonitorState).

Definition default_state : MonitorState := {|
  last_total := 0;
  last_check := None;
  history := [];
  seen_car_ids := []
|}.

Definition load_data (storage : File) : MonitorState :=
  match storage with
  | Document doc => doc
  | Unparsable => default_state
  | Missing => default_state
  end.

(** ** Messages

    A Telegram message is kept as its template and the values interpolated
    into it; the literal text of each template is fixed in the source. *)

(** First lines of a change notification: lines 276-277 (new cars) or
    lines 279-280 (change in the number of cars). *)
Inductive Header := IncreaseHeader | DecreaseHeader.

(** Lines 288-294 for one car: the lines that are printed.  The number of
    the car is part of its title line. *)
Record CarLines := {
  line_title : option (nat * pystr);
  line_price : option pystr;
  line_link : option pystr
}.

Inductive Message :=
(** lines 316-319: the counter could not be read *)
| CounterWarning (url : string)
(** lines 336-340: monitoring started *)
| Welcome (current_total : Z) (url : string)
(** [format_notification]: header, [{new_total}], [{diff:+d}], link to the
    search, the optional section of new cars, time footer *)
| ChangeNotification (header : Header) (new_total diff : Z) (url : string)
    (cars : option (list CarLines)) (time : string)
(** lines 383-387: periodic status *)
| StatusUpdate (current_total : Z) (check_count : nat) (time : string)
(** lines 393-395: error report with [str(e)[:200]] *)
| ErrorReport (error : pystr).

Definition is_change_notification (m : Message) : bool :=
  match m with
  | ChangeNotification _ _ _ _ _ _ => true
  | _ => false
  end.

Definition is_status_update (m : Message) : bool :=
  match m with
  | StatusUpdate _ _ _ => true
  | _ => false
  end.

(** ** The outside world *)

(** What [requests.post] meets: a response with a status code, or an
    exception (connection error, timeout). *)
Inductive PostOutcome :=
| Response (status_code : Z)
| NoResponse (e : pystr).

(** What writing the state file meets: the document is written; [open]
    raises and the file is untouched; [json.dump] raises after [open]
    emptied the file. *)
Inductive WriteOutcome := Written | OpenFails | DumpFails.

(** The answers of the outside world during one invocation. *)
Record Env := {
  (** successive readings of [datetime.now()] *)
  clock : nat -> datetime;
  (** [webdriver.Chrome(options=chrome_options)] *)
  chrome : result WebDriver;
  telegram : Message -> PostOutcome;
  disk : WriteOutcome
}.

Inductive Event :=
| SessionStarted
| SessionQuit
(** a POST to the bot API and the boolean that [send_telegram_message] returns *)
| Posted (message : Message) (sent : bool)
(** [save_data] serialising [doc] *)
| Saved (doc : MonitorState) (outcome : WriteOutcome).

Record World := {
  storage : File;
  (** number of clock readings so far *)
  ticks : nat;
  (** what the monitor did, oldest first *)
  trace : list Event
}.

Definition now (env : Env) (w : World) : datetime * World :=
  (clock env (ticks w),
   {| storage := storage w; ticks := S (ticks w); trace := trace w |}).

Definition emit (e : Event) (w : World) : World :=
  {| storage := storage w; ticks := ticks w; trace := trace w ++ [e] |}.

Definition write_file (f : File) (w : World) : World :=
  {| storage := f; ticks := ticks w; trace := trace w |}.

(** The messages posted in a trace, delivered or not. *)
Definition posted (tr : list Event) : list Message :=
  flat_map (fun e => match e with Posted m _ => [m] | _ => [] end) tr.

(** The documents handed to [json.dump] in a trace. *)
Definition saved (tr : list Event) : list MonitorState :=
  flat_map (fun e => match e with Saved d _ => [d] | _ => [] end) tr.

(** ** The monitor object *)

Record Monitor := {
  url : string;
  driver : option WebDriver;
  data : MonitorState
}.

Definition set_driver (d : option WebDriver) (m : Monitor) : Monitor :=
  {| url := url m; driver := d; data := data m |}.

Definition set_data (s : MonitorState) (m : Monitor) : Monitor :=
  {| url := url m; driver := driver m; data := s |}.

(** [Yad2CarMonitor(config)] *)
Definition init (config_url : string) (w : World) : Monitor :=
  {| url := config_url; driver := None; data := load_data (storage w) |}.

Definition save_data (env : Env) (m : Monitor) (w : World) : Monitor * World :=
  let '(t, w) := now env w in
  let doc := {| last_total := last_total (data m);
                last_check := Some (isoformat t);
                history := history (data m);
                seen_car_ids := seen_car_ids (data m) |} in
  let w := match disk env with
           | Written => write_file (Document doc) w
           | OpenFails => w
           | DumpFails => write_file Unparsable w
           end in
  (set_data doc m, emit (Saved doc (disk env)) w).

Definition setup_driver (env : Env) (m : Monitor) (w : World)
  : result unit * Monitor * World :=
  match chrome env with
  | Ok session =>
      (driver_implicitly_wait session, set_driver (Some session) m,
       emit SessionStarted w)
  | Raise e => (Raise e, m, w)
  end.

Definition close_driver (m : Monitor) (w : World) : Monitor * World :=
  match driver m with
  | Some _ => (set_driver None m, emit SessionQuit w)
  | None => (m, w)
  end.

(** [response.raise_for_status()] *)
Definition raise_for_status (status_code : Z) : result unit :=
  if (400 <=? status_code) && (status_code <? 600)
  then Raise (py "HTTPError") else Ok tt.

(** The body of the [try] of [send_telegram_message]. *)
Definition post_message (env : Env) (message : Message) : result bool :=
  match telegram env message with
  | Response status_code => _ <- raise_for_status status_code ;; Ok true
  | NoResponse e => Raise e
  end.

Definition send_telegram_message (env : Env) (message : Message) (w : World)
  : bool * World :=
  let sent := match post_message env message with
              | Ok b => b
              | Raise _ => false
              end in
  (sent, emit (Posted message sent) w).

(** [if car.get(key)] *)
Definition present (field : option pystr) : option pystr :=
  match field with
  | Some v => if truthy v then Some v else None
  | None => None
  end.

(** [enumerate(cars, i)], lines 287-294 *)
Fixpoint car_lines (i : nat) (cars : list Car) : list CarLines :=
  match cars with
  | [] => []
  | car :: rest =>
      {| line_title := option_map (pair i) (present (car_title car));
         line_price := present (car_price car);
         line_link := present (car_link car) |} :: car_lines (S i) rest
  end.

Definition format_notification (env : Env) (m : Monitor)
    (old_total new_total : Z) (new_listings : list Car) (w : World)
  : Message * World :=
  let diff := new_total - old_total in
  let header := if diff >? 0 then IncreaseHeader else DecreaseHeader in
  let cars :=
    match new_listings with
    | _ :: _ => if diff >? 0 then Some (car_lines 1 (firstn 3 new_listings)) else None
    | [] => None
    end in
  let '(t, w) := now env w in
  (ChangeNotification header new_total diff (url m) cars (strftime_HM_dmY t), w).

(** In-place updates of [self.data]. *)
Definition set_last_total (v : Z) (s : MonitorState) : MonitorState :=
  {| last_total := v; last_check := last_check s;
     history := history s; seen_car_ids := seen_car_ids s |}.

Definition set_history (h : list HistoryEntry) (s : MonitorState) : MonitorState :=
  {| last_total := last_total s; last_check := last_check s;
     history := h; seen_car_ids := seen_car_ids s |}.

(** [l[-n:]] for a positive [n] *)
Definition last_n {A} (n : nat) (l : list A) : list A :=
  skipn (List.length l - n) l.

(** ** The orchestrator: [run] *)

Section Orchestrator.
Context {U : Unicode}.

(** Lines 326-342: first run. *)
Definition first_run (env : Env) (current_total : Z) (m : Monitor) (w : World)
  : Monitor * World :=
  let m := set_data (set_last_total current_total (data m)) m in
  let '(t, w) := now env w in
  let entry := {| timestamp := isoformat t; total := current_total;
                  change := None |} in
  let m := set_data (set_history (history (data m) ++ [entry]) (data m)) m in
  let '(m, w) := save_data env m w in
  let '(_, w) := send_telegram_message env (Welcome current_total (url m)) w in
  (m, w).

(** Lines 347-375: the total changed. *)
Definition change_detected (env : Env) (current_total diff : Z)
    (m : Monitor) (w : World) : Monitor * World :=
  let new_listings := if diff >? 0 then get_new_listings (driver m) else [] in
  let '(message, w) :=
    format_notification env m (last_total (data m)) current_total new_listings w in
  let '(_, w) := send_telegram_message env message w in
  let m := set_data (set_last_total current_total (data m)) m in
  let '(t, w) := now env w in
  let entry := {| timestamp := isoformat t; total := current_total;
                  change := Some diff |} in
  let m := set_data (set_history (history (data m) ++ [entry]) (data m)) m in
  let m := if (100 <? List.length (history (data m)))%nat
           then set_data (set_history (last_n 100 (history (data m))) (data m)) m
           else m in
  save_data env m w.

(** Lines 376-388: the total did not change. *)
Definition no_change (env : Env) (current_total : Z) (m : Monitor) (w : World)
  : Monitor * World :=
  let check_count := List.length (history (data m)) in
  if ((check_count mod 50 =? 0) && (0 <? check_count))%nat then
    let '(t, w) := now env w in
    let '(_, w) :=
      send_telegram_message env
        (StatusUpdate current_total check_count (strftime_HM t)) w in
    (m, w)
  else (m, w).

(** Lines 308-388: the body of the [try] of [run]. *)
Definition run_body (env : Env) (m : Monitor) (w : World)
  : result unit * Monitor * World :=
  let '(started, m, w) := setup_driver env m w in
  match started with
  | Raise e => (Raise e, m, w)
  | Ok _ =>
      match get_total_results (driver m) with
      | None =>
          let '(_, w) := send_telegram_message env (CounterWarning (url m)) w in
          (Ok tt, m, w)
      | Some current_total =>
          if last_total (data m) =? 0 then
            let '(m, w) := first_run env current_total m w in (Ok tt, m, w)
          else
            let diff := current_total - last_total (data m) in
            if negb (diff =? 0) then
              let '(m, w) := change_detected env current_total diff m w in
              (Ok tt, m, w)
            else
              let '(m, w) := no_change env current_total m w in (Ok tt, m, w)
      end
  end.

(** [run]: the body, the [except] clause reporting the error, and the
    [finally] clause releasing the session. *)
Definition run (env : Env) (m : Monitor) (w : World) : Monitor * World :=
  let '(outcome, m, w) := run_body env m w in
  let w := match outcome with
           | Ok _ => w
           | Raise e =>
               snd (send_telegram_message env (ErrorReport (firstn 200 e)) w)
           end in
  close_driver m w.

(** One invocation of the script: [Yad2CarMonitor(config).run()]. *)
Definition invoke (config_url : string) (env : Env) (w : World) : Monitor * World :=
  run env (init config_url w) w.

(** A series of invocations, each with its own answers of the world. *)
Fixpoint invocations (config_url : string) (envs : list Env) (w : World) : World :=
  match envs with
  | [] => w
  | env :: rest => invocations config_url rest (snd (invoke config_url env w))
  end.

End Orchestrator.

(** ** Vocabulary of the properties *)

Section Vocabulary.
Context {U : Unicode}.

(** [run] is the first maximal run of decimal digits of [text]: nothing
    before it is a digit, it is not empty, and it stops at the end of the
    text or in front of a character that is no digit. *)
Definition first_digit_run (text run : pystr) : Prop :=
  exists before after,
    text = before ++ run ++ after /\
    forallb (fun c => negb (re_digit c)) before = true /\
    run <> [] /\
    forallb re_digit run = true /\
    match after with
    | [] => True
    | c :: _ => re_digit c = false
    end.

(** The integer that a digit string denotes in positional notation. *)
Fixpoint digits_value (s : pystr) : Z :=
  match s with
  | [] => 0
  | c :: rest =>
      match to_decimal c with Some d => d | None => 0 end
        * 10 ^ Z.of_nat (List.length rest)
      + digits_value rest
  end.

(** What one run gets to see of the counter. *)
Inductive Observation :=
| SessionFailed
| CounterUnreadable
| Total (current_total : Z).

Definition observe (env : Env) : Observation :=
  match chrome env with
  | Ok session =>
      match driver_implicitly_wait session with
      | Ok _ =>
          match get_total_results (Some session) with
          | Some t => Total t
          | None => CounterUnreadable
          end
      | Raise _ => SessionFailed
      end
  | Raise _ => SessionFailed
  end.

(** The stored total that an invocation starts from. *)
Definition stored_total (w : World) : Z := last_total (load_data (storage w)).

(** The invocation reads a total that differs from a non-zero stored total,
    and the state file can be written. *)
Definition change_run (env : Env) (w : World) : bool :=
  match observe env, disk env with
  | Total t, Written => negb (stored_total w =? 0) && negb (t - stored_total w =? 0)
  | _, _ => false
  end.

Fixpoint change_runs (config_url : string) (envs : list Env) (w : World) : bool :=
  match envs with
  | [] => true
  | env :: rest =>
      change_run env w &&
      change_runs config_url rest (snd (invoke config_url env w))
  end.

(** The history entry of a change seen by [env] in world [w]. *)
Definition change_entry (env : Env) (w : World) : HistoryEntry :=
  let t := match observe env with Total t => t | _ => 0 end in
  {| timestamp := isoformat (clock env (S (ticks w)));
     total := t;
     change := Some (t - stored_total w) |}.

(** The entries of a series of changes, oldest first. *)
Fixpoint change_entries (config_url : string) (envs : list Env) (w : World)
  : list HistoryEntry :=
  match envs with
  | [] => []
  | env :: rest =>
      change_entry env w ::
      change_entries config_url rest (snd (invoke config_url env w))
  end.

(** What an invocation adds to the trace. *)
Definition run_events (config_url : string) (env : Env) (w : World) : list Event :=
  skipn (List.length (trace w)) (trace (snd (invoke config_url env w))).

End Vocabulary.

Definition header_of (m : Message) : option Header :=
  match m with
  | ChangeNotification header _ _ _ _ _ => Some header
  | _ => None
  end.

(** The document that the first run saves when it reads the total [t]. *)
Definition first_run_doc (env : Env) (w : World) (t : Z) : MonitorState :=
  let s := load_data (storage w) in
  {| last_total := t;
     last_check := Some (isoformat (clock env (S (ticks w))));
     history := history s ++
       [{| timestamp := isoformat (clock env (ticks w)); total := t;
           change := None |}];
     seen_car_ids := seen_car_ids s |}.

(** The document that a run saves after a change of the total to [t]. *)
Definition change_doc (env : Env) (w : World) (t : Z) : MonitorState :=
  let s := load_data (storage w) in
  {| last_total := t;
     last_check := Some (isoformat (clock env (2 + ticks w)));
     history := last_n 100 (history s ++
       [{| timestamp := isoformat (clock env (S (ticks w))); total := t;
           change := Some (t - last_total s) |}]);
     seen_car_ids := seen_car_ids s |}.

(** Two states that agree on everything but [last_check]. *)
Definition same_but_last_check (s s' : MonitorState) : Prop :=
  last_total s = last_total s' /\
  history s = history s' /\
  seen_car_ids s = seen_car_ids s'.

(** The state file after [save_data] tried to write [doc]. *)
Definition file_after (outcome : WriteOutcome) (doc : MonitorState) (before : File) : File :=
  match outcome with
  | Written => Document doc
  | OpenFails => before
  | DumpFails => Unparsable
  end.

(** ** Sample inputs *)

Definition sample_url : string := "https://www.yad2.co.il/vehicles/cars".

Definition sample_element (text : pystr) : WebElement := {|
  elem_text := Ok text;
  elem_find_text := fun _ _ => Raise (py "NoSuchElementException");
  elem_find_href := Raise (py "NoSuchElementException")
|}.

(** A session in which only [span[class*='totalItems']] is present. *)
Definition sample_driver (text : pystr) : WebDriver := {|
  driver_implicitly_wait := Ok tt;
  driver_get := Ok tt;
  driver_wait := fun _ selector =>
    if String.eqb selector "span[class*='totalItems']"
    then Ok (sample_element text)
    else Raise (py "TimeoutException");
  driver_find_elements := fun _ _ => Ok [];
  driver_page_source := Ok (py "<html></html>")
|}.

Definition sample_clock (minutes : nat) (n : nat) : datetime := {|
  year := 2025; month := 1; day := 15;
  hour := N.of_nat (minutes / 60); minute := N.of_nat (minutes mod 60);
  second := N.of_nat n;
  microsecond := 0
|}.

(** The API answers 500 to every message and the disk is writable. *)
Definition sample_env (minutes : nat) (text : pystr) : Env := {|
  clock := sample_clock minutes;
  chrome := Ok (sample_driver text);
  telegram := fun _ => Response 500;
  disk := Written
|}.

Definition sample_state (t : Z) (h : list HistoryEntry) : MonitorState := {|
  last_total := t;
  last_check := Some "2025-01-15T07:40:00"%string;
  history := h;
  seen_car_ids := []
|}.

Definition sample_entry (t : Z) : HistoryEntry := {|
  timestamp := "2025-01-15T07:40:00"%string; total := t; change := None
|}.

Definition sample_world (s : MonitorState) : World := {|
  storage := Document s; ticks := 0; trace := []
|}.

(** A page whose counter alternates between 5 and 6 from one invocation
    to the next. *)
Definition alternating_envs (n : nat) : list Env :=
  map (fun i => sample_env i (if Nat.even i then py "5 cars" else py "6 cars"))
      (seq 0 n).

(** ** Entry point: [main] *)

(** The environment variables that [main] reads; [None] is an unset
    variable. *)
Record Environ := {
  CAR_LISTING_URL : option string;
  TELEGRAM_BOT_TOKEN : option string;
  TELEGRAM_CHAT_ID : option string;
  STORAGE_FILE : option string
}.

(** Truth value of [os.environ.get(name)]: unset and empty are false. *)
Definition is_set (v : option string) : bool :=
  match v with
  | Some (String _ _) => true
  | Some EmptyString | None => false
  end.

(** [p in s] for two byte strings. *)
Fixpoint string_contains (p s : string) : bool :=
  String.prefix p s ||
  match s with
  | EmptyString => false
  | String _ s' => string_contains p s'
  end.

(** How [main] ends: [sys.exit(status)], or the monitor ran; [warned] tells
    whether the warning about a URL outside Yad2 was issued. *)
Inductive MainResult :=
| Exited (status : Z)
| Ran (warned : bool) (m : Monitor).

Section EntryPoint.
Context {U : Unicode}.

(** [main]: the state file of the world is the one that [STORAGE_FILE]
    (default [yad2_data.json]) names. *)
Definition main (environ : Environ) (env : Env) (w : World) : MainResult * World :=
  if is_set (CAR_LISTING_URL environ) &&
     is_set (TELEGRAM_BOT_TOKEN environ) &&
     is_set (TELEGRAM_CHAT_ID environ)
  then
    let config_url :=
      match CAR_LISTING_URL environ with Some u => u | None => EmptyString end in
    let warned := negb (string_contains "yad2.co.il" config_url) in
    let '(m, w) := invoke config_url env w in
    (Ran warned m, w)
  else (Exited 1, w).

End EntryPoint.

(** ** Further vocabulary *)

(** The monitor object at rest: no session. *)
Definition idle (config_url : string) (s : MonitorState) : Monitor :=
  {| url := config_url; driver := None; data := s |}.

(** The world [w] after [n] clock readings and the events [evs], with the
    state file [f]. *)
Definition later (w : World) (n : nat) (f : File) (evs : list Event) : World :=
  {| storage := f; ticks := n + ticks w; trace := trace w ++ evs |}.

(** The boolean that [send_telegram_message] returns for a message. *)
Definition delivered (env : Env) (m : Message) (w : World) : bool :=
  fst (send_telegram_message env m w).

(** Starting the session raises [e]: in [webdriver.Chrome] or in
    [implicitly_wait]. *)
Definition setup_raises (env : Env) (e : pystr) : Prop :=
  chrome env = Raise e \/
  exists session,
    chrome env = Ok session /\ driver_implicitly_wait session = Raise e.

Definition count_started (evs : list Event) : nat :=
  List.length (filter (fun e => match e with SessionStarted => true | _ => false end) evs).

Definition count_quit (evs : list Event) : nat :=
  List.length (filter (fun e => match e with SessionQuit => true | _ => false end) evs).

(** The sum of the changes recorded in a history. *)
Definition sum_changes (h : list HistoryEntry) : Z :=
  fold_right (fun e acc => match change e with Some c => c | None => 0 end + acc) 0 h.

(** What one selector of the cascade yields: the text of the located
    element, or the exception of the wait or of the text access. *)
Definition located_text (page : WebDriver) (selector : string) : result pystr :=
  element <- driver_wait page (by_of selector) selector ;;
  elem_text element.

Definition raises {A} (r : result A) : Prop := exists e, r = Raise e.

(** The section of new cars of a message. *)
Definition cars_section (m : Message) : option (list CarLines) :=
  match m with
  | ChangeNotification _ _ _ _ cars _ => cars
  | _ => None
  end.

(** What [get_new_listings] guarantees of a car. *)
Definition well_formed_car (car : Car) : Prop :=
  (List.length (car_details car) <= 300)%nat /\
  car_title car <> Some [] /\
  car_price car <> Some [] /\
  car_link car <> Some [].

(** The tables give decimal values between 0 and 9. *)
Definition decimal_tables (U : Unicode) : Prop :=
  forall c d, to_decimal c = Some d -> 0 <= d <= 9.

Section SeriesVocabulary.
Context {U : Unicode}.

(** The messages posted by a series of invocations, oldest first. *)
Fixpoint series_posted (config_url : string) (envs : list Env) (w : World)
  : list Message :=
  match envs with
  | [] => []
  | env :: rest =>
      posted (run_events config_url env w) ++
      series_posted config_url rest (snd (invoke config_url env w))
  end.

End SeriesVocabulary.

(** ** Further sample inputs *)

Definition with_disk (outcome : WriteOutcome) (env : Env) : Env := {|
  clock := clock env; chrome := chrome env; telegram := telegram env;
  disk := outcome
|}.

Definition with_chrome (c : result WebDriver) (env : Env) : Env := {|
  clock := clock env; chrome := c; telegram := telegram env; disk := disk env
|}.

(** A listing with a title under [h3], a price under [[class*='price']],
    a link, and a long text. *)
Definition sample_listing (title price : pystr) : WebElement := {|
  elem_text := Ok (title ++ price ++ repeat 46%N 400);
  elem_find_text := fun _ sel =>
    if String.eqb sel "h3" then Ok title
    else if String.eqb sel "[class*='price']" then Ok price
    else Raise (py "NoSuchElementException");
  elem_find_href := Ok (Some (py "https://www.yad2.co.il/item/1"))
|}.

(** A session with the counter text and [n] feed items. *)
Definition sample_feed_driver (text : pystr) (n : nat) : WebDriver := {|
  driver_implicitly_wait := Ok tt;
  driver_get := Ok tt;
  driver_wait := fun _ selector =>
    if String.eqb selector "span[class*='totalItems']"
    then Ok (sample_element text)
    else Raise (py "TimeoutException");
  driver_find_elements := fun _ selector =>
    if String.eqb selector "div[class*='feedItem']"
    then Ok (repeat (sample_listing (py "Mazda 3") (py "45000")) n)
    else Ok [];
  driver_page_source := Ok (py "<html></html>")
|}.

(** A session in which no selector finds anything; only the page source
    is there. *)
Definition sample_source_driver (src : pystr) : WebDriver := {|
  driver_implicitly_wait := Ok tt;
  driver_get := Ok tt;
  driver_wait := fun _ _ => Raise (py "TimeoutException");
  driver_find_elements := fun _ _ => Ok [];
  driver_page_source := Ok src
|}.

(** A session whose keyword scan raises. *)
Definition sample_stale_driver (src : pystr) : WebDriver := {|
  driver_implicitly_wait := Ok tt;
  driver_get := Ok tt;
  driver_wait := fun _ _ => Raise (py "TimeoutException");
  driver_find_elements := fun _ _ => Raise (py "WebDriverException");
  driver_page_source := Ok src
|}.

(** A page source with the counter in front of the first keyword. *)
Definition sample_source : pystr :=
  py "<span>77 " ++ [215; 170; 215; 8226; 215; 166; 215; 215; 8226; 215; 170]%N
  ++ py "</span>".

(** A counter text whose first run of digits has 4301 digits. *)
Definition long_counter_text : pystr := repeat 49%N 4301 ++ py " cars".


Definition sample_environ : Environ := {|
  CAR_LISTING_URL := Some sample_url;
  TELEGRAM_BOT_TOKEN := Some "123:abc"%string;
  TELEGRAM_CHAT_ID := Some "42"%string;
  STORAGE_FILE := None
|}.

(** * Properties *)

(** ** Counter extraction *)

Section ExtractionFacts.
Context {U : Unicode}.

Lemma findall_from_run (text cur : pystr) :
  cur <> [] ->
  exists digits rest tl,
    text = digits ++ rest /\
    forallb re_digit digits = true /\
    match rest with [] => True | c :: _ => re_digit c = false end /\
    findall_from cur text = (cur ++ digits) :: tl.
Proof.
  revert cur. induction text as [|c text IH]; intros cur Hcur.
  - exists [], [], []. rewrite (app_nil_r cur). simpl.
    destruct cur; [contradiction|]. repeat split; reflexivity.
  - simpl. destruct (re_digit c) eqn:Hc.
    + destruct (IH (cur ++ [c])) as (ds & rest & tl & Ht & Hds & Hrest & Hf).
      { destruct cur; discriminate. }
      exists (c :: ds), rest, tl. subst text. simpl. rewrite Hc, Hds.
      rewrite Hf, <- app_assoc. repeat split; auto.
    + exists [], (c :: text), (findall_from [] text).
      rewrite (app_nil_r cur). destruct cur; [contradiction|].
      repeat split; auto.
Qed.

Lemma findall_digits_first (text : pystr) :
  existsb re_digit text = true ->
  exists run tl, first_digit_run text run /\ findall_digits text = run :: tl.
Proof.
  unfold findall_digits. induction text as [|c text IH]; simpl; [discriminate|].
  destruct (re_digit c) eqn:Hc; simpl; intros H.
  - destruct (findall_from_run text [c]) as (ds & rest & tl & Ht & Hds & Hrest & Hf);
      [discriminate|].
    exists (c :: ds), tl. split; [|exact Hf].
    exists [], rest. subst text. simpl. rewrite Hc, Hds.
    repeat split; auto. discriminate.
  - destruct (IH H) as (run & tl & (before & after & Ht & Hb & Hne & Hr & Ha) & Hf).
    exists run, tl. split; [|exact Hf].
    exists (c :: before), after. subst text. simpl. rewrite Hc, Hb.
    repeat split; auto.
Qed.

Lemma int_of_from (s : pystr) (acc : Z) :
  fold_left
    (fun a c => 10 * a + match to_decimal c with Some d => d | None => 0 end)
    s acc
  = acc * 10 ^ Z.of_nat (List.length s) + digits_value s.
Proof.
  revert acc. induction s as [|c s IH]; intros acc; cbn [fold_left].
  - simpl. lia.
  - rewrite IH. cbn [digits_value List.length].
    rewrite Nat2Z.inj_succ, Z.pow_succ_r by lia.
    generalize (10 ^ Z.of_nat (List.length s)) (digits_value s).
    intros p v. destruct (to_decimal c); ring.
Qed.

Lemma int_of_value (s : pystr) : int_of s = digits_value s.
Proof. unfold int_of. rewrite int_of_from. lia. Qed.

(** C3, as amended: when the text in which the counter is looked up holds
    a decimal digit, [get_total_results] returns the integer denoted by
    the first maximal run of digits of that text, unless [int] refuses
    the run for its length; then it returns [None]. *)
Theorem first_digit_run_extracted (page : WebDriver) (text : pystr) :
  driver_get page = Ok tt ->
  find_total_text page = Ok (Some text) ->
  existsb re_digit text = true ->
  exists run,
    first_digit_run text run /\
    get_total_results (Some page) =
      if int_refuses run then None else Some (digits_value run).
Proof.
  intros Hget Htext Hdigit.
  destruct (findall_digits_first text Hdigit) as (run & tl & Hrun & Hfind).
  exists run. split; [exact Hrun|].
  unfold get_total_results, get_total_results_body.
  rewrite Hget; cbn [bind]. rewrite Htext; cbn [bind extract_total].
  destruct text as [|c text']; [discriminate|].
  cbn [truthy]. rewrite Hfind. unfold py_int.
  destruct (int_refuses run); cbn [bind]; [reflexivity|].
  rewrite int_of_value. reflexivity.
Qed.

(** The same reading of the number on the fallback over candidate
    elements (lines 144-153). *)
Lemma first_candidate_first_run (elem : WebElement) (rest : list WebElement)
    (t : pystr) :
  elem_text elem = Ok t ->
  existsb re_digit (strip t) = true ->
  exists run,
    first_digit_run (strip t) run /\
    (int_refuses run = false ->
     first_candidate_total (elem :: rest) = Ok (Some (digits_value run))).
Proof.
  intros Ht Hdigit.
  destruct (findall_digits_first (strip t) Hdigit) as (run & tl & Hrun & Hfind).
  exists run. split; [exact Hrun|]. intros Hok.
  cbn [first_candidate_total]. rewrite Ht. cbn [bind].
  destruct (strip t) as [|c text'] eqn:Hs; [discriminate|].
  cbn [truthy negb]. rewrite Hfind. unfold py_int. rewrite Hok. cbn [bind].
  rewrite int_of_value. reflexivity.
Qed.

End ExtractionFacts.

(** ** Sample evaluations, with the ASCII tables *)

Example findall_runs :
  findall_digits (U := ascii_tables) (py "a12b345c6") = [py "12"; py "345"; py "6"].
Proof. reflexivity. Qed.

(** The page-source pattern takes at most six digits, right in front of
    the keyword. *)
Example search_in_source :
  re_search_counter (U := ascii_tables)
    (py "12 1234567  " ++ [215; 170; 215; 8226; 215; 166; 215; 215; 8221]%N)
  = Some (py "234567").
Proof. reflexivity. Qed.

Example isoformat_microseconds :
  isoformat {| year := 2025; month := 1; day := 15; hour := 8; minute := 0;
               second := 7; microsecond := 123 |}
  = "2025-01-15T08:00:07.000123"%string.
Proof. reflexivity. Qed.

Example strftime_footer :
  strftime_HM_dmY (sample_clock 65 0) = "01:05 - 15/01/2025"%string.
Proof. reflexivity. Qed.

(** The examples of the specification, with the ASCII tables. *)
Example extract_1234 :
  get_total_results (U := ascii_tables)
    (Some (sample_driver (py "found 1234 ads, 20 new"))) = Some 1234.
Proof. reflexivity. Qed.

Example extract_0 :
  get_total_results (U := ascii_tables) (Some (sample_driver (py "0 ads"))) = Some 0.
Proof. reflexivity. Qed.

Lemma first_digit_run_extracted_witness :
  exists run,
    first_digit_run (U := ascii_tables) (py "found 1234 ads, 20 new") run /\
    get_total_results (U := ascii_tables)
      (Some (sample_driver (py "found 1234 ads, 20 new")))
    = if int_refuses (U := ascii_tables) run then None
      else Some (digits_value (U := ascii_tables) run).
Proof.
  apply (first_digit_run_extracted (U := ascii_tables)
           (sample_driver (py "found 1234 ads, 20 new"))); reflexivity.
Defined.

(** ** The orchestrator, path by path *)

Section OrchestratorFacts.
Context {U : Unicode}.

Lemma observe_total (env : Env) (t : Z) :
  observe env = Total t ->
  exists page,
    chrome env = Ok page /\
    driver_implicitly_wait page = Ok tt /\
    get_total_results (Some page) = Some t.
Proof.
  unfold observe. destruct (chrome env) as [page|]; [|discriminate].
  destruct (driver_implicitly_wait page) as [[]|] eqn:Hwait; [|discriminate].
  destruct (get_total_results (Some page)) eqn:Hres; [|discriminate].
  intros [= ->]. exists page. auto.
Qed.

Lemma observe_unreadable (env : Env) :
  observe env = CounterUnreadable ->
  exists page,
    chrome env = Ok page /\
    driver_implicitly_wait page = Ok tt /\
    get_total_results (Some page) = None.
Proof.
  unfold observe. destruct (chrome env) as [page|]; [|discriminate].
  destruct (driver_implicitly_wait page) as [[]|] eqn:Hwait; [|discriminate].
  destruct (get_total_results (Some page)) eqn:Hres; [discriminate|].
  intros _. exists page. auto.
Qed.

Lemma last_n_short {A} (n : nat) (l : list A) :
  (List.length l <= n)%nat -> last_n n l = l.
Proof.
  intros H. unfold last_n. replace (List.length l - n)%nat with O by lia.
  reflexivity.
Qed.

Lemma last_n_length {A} (n : nat) (l : list A) :
  List.length (last_n n l) = Nat.min n (List.length l).
Proof. unfold last_n. rewrite length_skipn. lia. Qed.

(** [send_telegram_message] answers [True] unless the POST raises or the
    status is a client or server error; it touches neither the state file
    nor the clock. *)
Lemma send_telegram_message_result (env : Env) (message : Message) (w : World) :
  send_telegram_message env message w =
  let sent := match telegram env message with
              | Response status_code =>
                  negb ((400 <=? status_code) && (status_code <? 600))
              | NoResponse _ => false
              end in
  (sent, {| storage := storage w; ticks := ticks w;
            trace := trace w ++ [Posted message sent] |}).
Proof.
  unfold send_telegram_message, post_message, raise_for_status, emit.
  destruct (telegram env message) as [status_code|e]; [|reflexivity].
  destruct ((400 <=? status_code) && (status_code <? 600)); reflexivity.
Qed.

(** The message of a change from [old_total] to [new_total]. *)
Lemma format_notification_header (env : Env) (m : Monitor)
    (old_total new_total : Z) (cars : list Car) (w : World) :
  exists section,
    format_notification env m old_total new_total cars w =
    (ChangeNotification
       (if new_total - old_total >? 0 then IncreaseHeader else DecreaseHeader)
       new_total (new_total - old_total) (url m) section
       (strftime_HM_dmY (clock env (ticks w))),
     {| storage := storage w; ticks := S (ticks w); trace := trace w |}).
Proof. unfold format_notification, now. eexists. reflexivity. Qed.

Lemma invoke_unreadable (config_url : string) (env : Env) (w : World) :
  observe env = CounterUnreadable ->
  invoke config_url env w =
  ({| url := config_url; driver := None; data := load_data (storage w) |},
   {| storage := storage w; ticks := ticks w;
      trace := trace w ++
        [SessionStarted;
         Posted (CounterWarning config_url)
           (fst (send_telegram_message env (CounterWarning config_url) w));
         SessionQuit] |}).
Proof.
  intros H. destruct (observe_unreadable env H) as (page & Hc & Hw & Hr).
  unfold invoke, run, run_body, setup_driver, init.
  rewrite Hc, Hw. cbn [driver set_driver]. rewrite Hr.
  unfold send_telegram_message, close_driver, set_driver, emit. cbn.
  rewrite <- !app_assoc. reflexivity.
Qed.

Lemma invoke_first_run (config_url : string) (env : Env) (w : World) (t : Z) :
  observe env = Total t ->
  stored_total w = 0 ->
  invoke config_url env w =
  ({| url := config_url; driver := None; data := first_run_doc env w t |},
   {| storage := file_after (disk env) (first_run_doc env w t) (storage w);
      ticks := 2 + ticks w;
      trace := trace w ++
        [SessionStarted;
         Saved (first_run_doc env w t) (disk env);
         Posted (Welcome t config_url)
           (fst (send_telegram_message env (Welcome t config_url) w));
         SessionQuit] |}).
Proof.
  intros H H0. destruct (observe_total env t H) as (page & Hc & Hw & Hr).
  unfold stored_total in H0.
  unfold invoke, run, run_body, setup_driver, init.
  rewrite Hc, Hw. cbn [driver set_driver data]. rewrite Hr, H0.
  cbn [Z.eqb]. unfold first_run, save_data, now, first_run_doc.
  unfold send_telegram_message, close_driver, set_driver, set_data, emit.
  destruct (disk env); unfold write_file; cbn -[isoformat];
    rewrite <- !app_assoc; reflexivity.
Qed.

Lemma invoke_change (config_url : string) (env : Env) (w : World) (t : Z) :
  observe env = Total t ->
  stored_total w <> 0 ->
  t - stored_total w <> 0 ->
  exists section,
    let message :=
      ChangeNotification
        (if t - stored_total w >? 0 then IncreaseHeader else DecreaseHeader)
        t (t - stored_total w) config_url section
        (strftime_HM_dmY (clock env (ticks w))) in
    invoke config_url env w =
    ({| url := config_url; driver := None; data := change_doc env w t |},
     {| storage := file_after (disk env) (change_doc env w t) (storage w);
        ticks := 3 + ticks w;
        trace := trace w ++
          [SessionStarted;
           Posted message (fst (send_telegram_message env message w));
           Saved (change_doc env w t) (disk env);
           SessionQuit] |}).
Proof.
  intros H H0 Hd. destruct (observe_total env t H) as (page & Hc & Hw & Hr).
  unfold stored_total in *.
  unfold invoke, run, run_body, setup_driver, init.
  rewrite Hc, Hw. cbn [driver set_driver data]. rewrite Hr.
  destruct (Z.eqb_spec (last_total (load_data (storage w))) 0) as [E|_];
    [contradiction|].
  destruct (Z.eqb_spec (t - last_total (load_data (storage w))) 0) as [E|_];
    [contradiction|].
  cbn [negb]. unfold change_detected.
  cbn [driver data set_data].
  match goal with
  | |- context [format_notification ?e ?m ?o ?n ?c ?w0] =>
      destruct (format_notification_header e m o n c w0) as (section & ->)
  end.
  exists section. cbn zeta.
  unfold save_data, now, change_doc.
  unfold send_telegram_message, close_driver, set_driver, set_data, emit.
  cbn -[isoformat strftime_HM_dmY last_n Z.sub Nat.ltb].
  match goal with
  | |- context [(100 <? ?n)%nat] => destruct (Nat.ltb_spec 100 n) as [Hcap|Hcap]
  end.
  - destruct (disk env); unfold write_file;
      cbn -[isoformat strftime_HM_dmY last_n Z.sub];
      rewrite <- !app_assoc; reflexivity.
  - rewrite last_n_short by exact Hcap.
    destruct (disk env); unfold write_file;
      cbn -[isoformat strftime_HM_dmY last_n Z.sub];
      rewrite <- !app_assoc; reflexivity.
Qed.

Lemma invoke_no_change (config_url : string) (env : Env) (w : World) (t : Z) :
  observe env = Total t ->
  stored_total w <> 0 ->
  t - stored_total w = 0 ->
  let check_count := List.length (history (load_data (storage w))) in
  let message :=
    StatusUpdate t check_count (strftime_HM (clock env (ticks w))) in
  invoke config_url env w =
  ({| url := config_url; driver := None; data := load_data (storage w) |},
   if ((check_count mod 50 =? 0) && (0 <? check_count))%nat then
     {| storage := storage w; ticks := S (ticks w);
        trace := trace w ++
          [SessionStarted;
           Posted message (fst (send_telegram_message env message w));
           SessionQuit] |}
   else
     {| storage := storage w; ticks := ticks w;
        trace := trace w ++ [SessionStarted; SessionQuit] |}).
Proof.
  intros H H0 Hd. destruct (observe_total env t H) as (page & Hc & Hw & Hr).
  unfold stored_total in *.
  unfold invoke, run, run_body, setup_driver, init.
  rewrite Hc, Hw. cbn [driver set_driver data]. rewrite Hr.
  destruct (Z.eqb_spec (last_total (load_data (storage w))) 0) as [E|_];
    [contradiction|].
  rewrite Hd. cbn [Z.eqb negb]. unfold no_change. cbn [data].
  cbn zeta.
  destruct ((_ mod 50 =? 0) && _)%nat.
  - unfold send_telegram_message, close_driver, set_driver, now, emit.
    cbn -[strftime_HM]. rewrite <- !app_assoc. reflexivity.
  - unfold close_driver, set_driver, emit. cbn.
    rewrite <- !app_assoc. reflexivity.
Qed.


Lemma run_events_app (config_url : string) (env : Env) (w : World) (evs : list Event) :
  trace (snd (invoke config_url env w)) = trace w ++ evs ->
  run_events config_url env w = evs.
Proof.
  intros H. unfold run_events. rewrite H, skipn_app, skipn_all, Nat.sub_diag.
  reflexivity.
Qed.

(** C1: with a stored total [T > 0] and an observed total [T'], the run
    posts a change notification exactly when [T' - T <> 0], and the header
    of that notification is the increase header when [T' - T > 0] and the
    decrease header otherwise. *)
Theorem change_notified_iff_diff (config_url : string) (env : Env) (w : World)
    (T T' : Z) :
  stored_total w = T ->
  0 < T ->
  observe env = Total T' ->
  let sent := posted (run_events config_url env w) in
  ((exists m, In m sent /\ is_change_notification m = true) <-> T' - T <> 0) /\
  (forall m, In m sent -> is_change_notification m = true ->
     header_of m = Some (if T' - T >? 0 then IncreaseHeader else DecreaseHeader)).
Proof.
  intros HT Hpos Hobs sent. subst sent.
  assert (Hnz : stored_total w <> 0) by lia.
  destruct (Z.eq_dec (T' - T) 0) as [Hd|Hd].
  - pose proof (invoke_no_change config_url env w T' Hobs Hnz) as Hrun.
    rewrite HT in Hrun. specialize (Hrun Hd). cbv zeta in Hrun.
    assert (Hnone : forall m,
               In m (posted (run_events config_url env w)) ->
               is_change_notification m = false).
    { intros m. destruct ((_ mod 50 =? 0) && _)%nat in Hrun;
        erewrite run_events_app by (rewrite Hrun; reflexivity);
        simpl; intros Hin; intuition; subst; reflexivity. }
    split; [split|].
    + intros (m & Hin & Hm). rewrite (Hnone m Hin) in Hm. discriminate.
    + intros Hne. contradiction.
    + intros m Hin Hm. rewrite (Hnone m Hin) in Hm. discriminate.
  - destruct (invoke_change config_url env w T' Hobs Hnz) as (section & Hrun).
    { rewrite HT. exact Hd. }
    cbv zeta in Hrun. rewrite HT in Hrun.
    erewrite run_events_app by (rewrite Hrun; reflexivity).
    simpl. split; [split|].
    + intros _. exact Hd.
    + intros _. eexists. split; [left; reflexivity|reflexivity].
    + intros m [<-|[]] _. reflexivity.
Qed.

(** C2: with a stored total of zero, whatever total the run reads (zero
    included), it only initialises: it stores the total read, appends a
    history entry without a change, saves, and posts the welcome message;
    no change notification is posted. *)
Theorem first_run_only_initializes (config_url : string) (env : Env) (w : World)
    (current : Z) :
  stored_total w = 0 ->
  observe env = Total current ->
  let s := load_data (storage w) in
  let r := invoke config_url env w in
  exists stamp checked delivered,
    let doc := {| last_total := current;
                  last_check := Some checked;
                  history := history s ++
                    [{| timestamp := stamp; total := current; change := None |}];
                  seen_car_ids := seen_car_ids s |} in
    data (fst r) = doc /\
    run_events config_url env w =
      [SessionStarted; Saved doc (disk env);
       Posted (Welcome current config_url) delivered; SessionQuit] /\
    storage (snd r) = file_after (disk env) doc (storage w) /\
    (forall m, In m (posted (run_events config_url env w)) ->
       is_change_notification m = false).
Proof.
  intros H0 Hobs s r. subst s r.
  pose proof (invoke_first_run config_url env w current Hobs H0) as Hrun.
  exists (isoformat (clock env (ticks w))),
         (isoformat (clock env (S (ticks w)))),
         (fst (send_telegram_message env (Welcome current config_url) w)).
  cbv zeta. erewrite run_events_app by (rewrite Hrun; reflexivity).
  rewrite Hrun. cbn [fst snd data storage].
  repeat split.
  simpl. intros m [<-|[]]. reflexivity.
Qed.

(** C8: when the counter cannot be read, the run posts the warning that
    the counter could not be read, changes neither the state in memory nor
    the state file, saves nothing, and releases the session. *)
Theorem unreadable_counter_warns (config_url : string) (env : Env) (w : World) :
  observe env = CounterUnreadable ->
  let r := invoke config_url env w in
  (exists delivered,
     run_events config_url env w =
       [SessionStarted; Posted (CounterWarning config_url) delivered;
        SessionQuit]) /\
  data (fst r) = load_data (storage w) /\
  storage (snd r) = storage w /\
  saved (run_events config_url env w) = [] /\
  driver (fst r) = None.
Proof.
  intros Hobs r. subst r.
  pose proof (invoke_unreadable config_url env w Hobs) as Hrun.
  erewrite run_events_app by (rewrite Hrun; reflexivity).
  rewrite Hrun. cbn [fst snd data storage driver].
  repeat split. eexists. reflexivity.
Qed.

Lemma save_data_frame (env : Env) (m : Monitor) (w : World) :
  same_but_last_check (data m) (data (fst (save_data env m w))).
Proof. unfold save_data, now. cbn. repeat split. Qed.

(** A run that reads the stored, non-zero total again leaves the state in
    memory and the state file alone. *)
Lemma no_change_frame (config_url : string) (env : Env) (w : World) :
  stored_total w <> 0 ->
  observe env = Total (stored_total w) ->
  data (fst (invoke config_url env w)) = load_data (storage w) /\
  storage (snd (invoke config_url env w)) = storage w /\
  saved (run_events config_url env w) = [].
Proof.
  intros Hnz Hobs.
  pose proof (invoke_no_change config_url env w _ Hobs Hnz (Z.sub_diag _)) as Hrun.
  cbv zeta in Hrun.
  repeat apply conj.
  - rewrite Hrun. reflexivity.
  - rewrite Hrun. destruct ((_ mod 50 =? 0) && _)%nat; reflexivity.
  - destruct ((_ mod 50 =? 0) && _)%nat in Hrun;
      erewrite run_events_app by (rewrite Hrun; reflexivity); reflexivity.
Qed.

(** C5, as amended: with a non-zero stored total and an observed total
    equal to it, the run saves nothing: the state in memory is the loaded
    one and the state file is left as it was, [last_check] included; a
    save of that state would differ from the stored one in [last_check]
    only. *)
Theorem no_op_run_keeps_state (config_url : string) (env : Env) (w : World) :
  stored_total w <> 0 ->
  observe env = Total (stored_total w) ->
  let r := invoke config_url env w in
  data (fst r) = load_data (storage w) /\
  storage (snd r) = storage w /\
  saved (run_events config_url env w) = [] /\
  (forall env' w',
     same_but_last_check (load_data (storage w))
       (data (fst (save_data env' (fst r) w')))).
Proof.
  intros Hnz Hobs r. subst r.
  destruct (no_change_frame config_url env w Hnz Hobs) as (Hdata & Hfile & Hsaved).
  repeat apply conj; auto.
  intros env' w'. rewrite <- Hdata. apply save_data_frame.
Qed.

(** C6: with a stored total [T > 0] and the same total observed, a status
    notification is posted exactly when the length of the history is a
    positive multiple of 50; the state in memory and the state file stay
    as they were and nothing is saved. *)
Theorem status_iff_multiple_of_50 (config_url : string) (env : Env) (w : World)
    (T : Z) :
  stored_total w = T ->
  0 < T ->
  observe env = Total T ->
  let r := invoke config_url env w in
  let sent := posted (run_events config_url env w) in
  ((exists m, In m sent /\ is_status_update m = true) <->
   (exists k, (0 < k)%nat /\
              List.length (history (load_data (storage w))) = (50 * k)%nat)) /\
  data (fst r) = load_data (storage w) /\
  storage (snd r) = storage w /\
  saved (run_events config_url env w) = [].
Proof.
  intros HT Hpos Hobs r sent. subst r sent.
  assert (Hnz : stored_total w <> 0) by lia.
  rewrite <- HT in Hobs.
  destruct (no_change_frame config_url env w Hnz Hobs) as (Hd & Hs & Hsv).
  split; [|auto].
  pose proof (invoke_no_change config_url env w _ Hobs Hnz (Z.sub_diag _)) as Hrun.
  cbv zeta in Hrun.
  set (n := List.length (history (load_data (storage w)))) in *.
  destruct ((n mod 50 =? 0) && (0 <? n))%nat eqn:Hc;
    erewrite run_events_app by (rewrite Hrun; reflexivity);
    cbn [posted flat_map app].
  - apply andb_prop in Hc. destruct Hc as [Hm Hn].
    apply Nat.eqb_eq in Hm. apply Nat.ltb_lt in Hn.
    split; intros _.
    + exists (n / 50)%nat.
      pose proof (Nat.div_mod_eq n 50). split; lia.
    + eexists. split; [left; reflexivity|reflexivity].
  - split.
    + intros (m & [] & _).
    + intros (k & Hk & Hn). exfalso.
      assert (Hm : (n mod 50 = 0)%nat).
      { rewrite Hn, Nat.mul_comm. apply Nat.Div0.mod_mul. }
      apply andb_false_iff in Hc. destruct Hc as [Hc|Hc].
      * apply Nat.eqb_neq in Hc. contradiction.
      * apply Nat.ltb_ge in Hc. lia.
Qed.

(** C7: in a run that detects a change, whatever the Telegram API answers
    to the notification (an error status and a failed connection
    included), the new total is stored, the history entry with the change
    is appended, and [save_data] runs after the POST;
    [send_telegram_message] answers [false] whenever the POST raises. *)
Theorem failed_send_still_persists (config_url : string) (env : Env) (w : World)
    (current : Z) :
  stored_total w <> 0 ->
  observe env = Total current ->
  current - stored_total w <> 0 ->
  let s := load_data (storage w) in
  let r := invoke config_url env w in
  (exists stamp checked message delivered,
     let doc := {| last_total := current;
                   last_check := Some checked;
                   history := last_n 100 (history s ++
                     [{| timestamp := stamp; total := current;
                         change := Some (current - last_total s) |}]);
                   seen_car_ids := seen_car_ids s |} in
     is_change_notification message = true /\
     delivered = fst (send_telegram_message env message w) /\
     run_events config_url env w =
       [SessionStarted; Posted message delivered; Saved doc (disk env);
        SessionQuit] /\
     data (fst r) = doc /\
     storage (snd r) = file_after (disk env) doc (storage w)) /\
  (forall message w0 e,
     post_message env message = Raise e ->
     fst (send_telegram_message env message w0) = false).
Proof.
  intros Hnz Hobs Hd s r. subst s r. split.
  - destruct (invoke_change config_url env w current Hobs Hnz Hd)
      as (section & Hrun).
    cbv zeta in Hrun.
    exists (isoformat (clock env (S (ticks w)))),
           (isoformat (clock env (2 + ticks w))).
    eexists (ChangeNotification _ _ _ _ _ _). eexists. cbv zeta.
    erewrite run_events_app by (rewrite Hrun; reflexivity).
    rewrite Hrun. cbn [fst snd data storage].
    split; [reflexivity|]. split; [reflexivity|]. repeat split.
  - intros message w0 e He. unfold send_telegram_message.
    rewrite He. reflexivity.
Qed.


(** *** The history cap over a series of changes *)

Lemma last_n_absorb {A} (n : nat) (l x : list A) :
  last_n n (last_n n l ++ x) = last_n n (l ++ x).
Proof.
  destruct (Nat.le_gt_cases (List.length l) n) as [Hle|Hgt].
  - rewrite (last_n_short n l Hle). reflexivity.
  - unfold last_n. rewrite !length_app, length_skipn, !skipn_app, skipn_skipn.
    rewrite length_skipn. f_equal; f_equal; lia.
Qed.

Lemma last_n_app_long {A} (n : nat) (l x : list A) :
  (n <= List.length x)%nat -> last_n n (l ++ x) = last_n n x.
Proof.
  intros H. unfold last_n. rewrite length_app, skipn_app.
  rewrite skipn_all2 by lia. simpl. f_equal. lia.
Qed.

Lemma change_run_inv (env : Env) (w : World) :
  change_run env w = true ->
  exists t,
    observe env = Total t /\ disk env = Written /\
    stored_total w <> 0 /\ t - stored_total w <> 0.
Proof.
  unfold change_run. destruct (observe env) as [| |t]; try discriminate.
  destruct (disk env); try discriminate.
  intros H. apply andb_prop in H. destruct H as [H1 H2].
  exists t. repeat split.
  - intros E. rewrite E in H1. discriminate.
  - intros E. rewrite E in H2. discriminate.
Qed.

(** After a change the state file holds the capped history. *)
Lemma change_run_storage (config_url : string) (env : Env) (w : World) :
  change_run env w = true ->
  exists doc,
    storage (snd (invoke config_url env w)) = Document doc /\
    history doc =
      last_n 100 (history (load_data (storage w)) ++ [change_entry env w]).
Proof.
  intros H. destruct (change_run_inv env w H) as (t & Hobs & Hdisk & Hnz & Hd).
  destruct (invoke_change config_url env w t Hobs Hnz Hd) as (section & Hrun).
  cbv zeta in Hrun. exists (change_doc env w t).
  rewrite Hrun, Hdisk. cbn [snd storage file_after]. split; [reflexivity|].
  unfold change_doc, change_entry, stored_total. rewrite Hobs. reflexivity.
Qed.

Lemma change_runs_storage (config_url : string) (envs : list Env) :
  forall w,
    envs <> [] ->
    change_runs config_url envs w = true ->
    exists doc,
      storage (invocations config_url envs w) = Document doc /\
      history doc =
        last_n 100 (history (load_data (storage w)) ++
                    change_entries config_url envs w).
Proof.
  induction envs as [|env rest IH]; intros w Hne Hruns; [contradiction|].
  cbn [change_runs] in Hruns. apply andb_prop in Hruns.
  destruct Hruns as [Hrun Hrest].
  destruct (change_run_storage config_url env w Hrun) as (doc1 & Hst1 & Hh1).
  cbn [invocations change_entries].
  destruct rest as [|env2 rest].
  - exists doc1. split; [exact Hst1| exact Hh1].
  - destruct (IH (snd (invoke config_url env w))) as (doc & Hst & Hh);
      [discriminate|exact Hrest|].
    exists doc. split; [exact Hst|].
    rewrite Hh, Hst1. cbn [load_data]. rewrite Hh1, last_n_absorb.
    rewrite <- app_assoc. reflexivity.
Qed.

Lemma change_entries_length (config_url : string) (envs : list Env) :
  forall w, List.length (change_entries config_url envs w) = List.length envs.
Proof.
  induction envs as [|env rest IH]; intros w; [reflexivity|].
  cbn [change_entries List.length]. rewrite IH. reflexivity.
Qed.


(** Whatever the disk does, the document that a change-detecting run hands
    to [save_data] has at most 100 history entries. *)
Lemma change_saves_capped (config_url : string) (env : Env) (w : World) (t : Z) :
  observe env = Total t ->
  stored_total w <> 0 ->
  t - stored_total w <> 0 ->
  exists doc,
    saved (run_events config_url env w) = [doc] /\
    (List.length (history doc) <= 100)%nat.
Proof.
  intros Hobs Hnz Hd.
  destruct (invoke_change config_url env w t Hobs Hnz Hd) as (section & Hrun).
  cbv zeta in Hrun. exists (change_doc env w t).
  erewrite run_events_app by (rewrite Hrun; reflexivity).
  split; [reflexivity|].
  unfold change_doc. cbn [history]. rewrite last_n_length. lia.
Qed.

End OrchestratorFacts.

(** C9: loading a state file that is missing or that cannot be parsed gives
    the default state: total zero, no last check, empty history, no seen
    car ids.  [load_data] is total, so nothing is raised. *)
Theorem load_data_defaults :
  load_data Missing = default_state /\
  load_data Unparsable = default_state /\
  last_total default_state = 0 /\
  last_check default_state = None /\
  history default_state = [] /\
  seen_car_ids default_state = [].
Proof. repeat split. Qed.

(** ** The properties on sample runs, with the ASCII tables *)

Lemma change_notified_iff_diff_witness :
  let sent :=
    posted (run_events (U := ascii_tables) sample_url
              (sample_env 0 (py "12 cars"))
              (sample_world (sample_state 10 []))) in
  ((exists m, In m sent /\ is_change_notification m = true) <-> 12 - 10 <> 0) /\
  (forall m, In m sent -> is_change_notification m = true ->
     header_of m = Some (if 12 - 10 >? 0 then IncreaseHeader else DecreaseHeader)).
Proof.
  apply (change_notified_iff_diff (U := ascii_tables) sample_url
           (sample_env 0 (py "12 cars")) (sample_world (sample_state 10 []))
           10 12); reflexivity.
Defined.

Lemma first_run_only_initializes_witness :
  exists stamp checked delivered,
    data (fst (invoke (U := ascii_tables) sample_url
                 (sample_env 0 (py "0 cars"))
                 (sample_world (sample_state 0 [])))) =
    {| last_total := 0; last_check := Some checked;
       history := [{| timestamp := stamp; total := 0; change := None |}];
       seen_car_ids := [] |} /\
    posted (run_events (U := ascii_tables) sample_url
              (sample_env 0 (py "0 cars"))
              (sample_world (sample_state 0 []))) =
    [Welcome 0 sample_url] /\
    delivered = false.
Proof.
  destruct (first_run_only_initializes (U := ascii_tables) sample_url
              (sample_env 0 (py "0 cars")) (sample_world (sample_state 0 []))
              0 eq_refl eq_refl)
    as (stamp & checked & delivered & Hdata & Hev & _ & _).
  exists stamp, checked, false. split; [exact Hdata|].
  split; [|reflexivity]. rewrite Hev. reflexivity.
Defined.


Lemma no_op_run_keeps_state_witness :
  storage (snd (invoke (U := ascii_tables) sample_url
                  (sample_env 0 (py "12 cars"))
                  (sample_world (sample_state 12 [sample_entry 12])))) =
  Document (sample_state 12 [sample_entry 12]).
Proof.
  apply (no_op_run_keeps_state (U := ascii_tables) sample_url
           (sample_env 0 (py "12 cars"))
           (sample_world (sample_state 12 [sample_entry 12]))).
  - discriminate.
  - reflexivity.
Defined.

(** C3 as stated fails on a run of digits that [int] refuses: the text is
    located and holds digits, yet the counter is reported unreadable. *)
Lemma first_digit_run_counterexample :
  driver_get (sample_driver long_counter_text) = Ok tt /\
  find_total_text (U := ascii_tables) (sample_driver long_counter_text)
    = Ok (Some long_counter_text) /\
  existsb (re_digit (U := ascii_tables)) long_counter_text = true /\
  get_total_results (U := ascii_tables) (Some (sample_driver long_counter_text))
    = None.
Proof. vm_compute. repeat split. Qed.


(** C5 as stated fails on the first-run path: the stored total is zero, the
    page shows zero again, and the run appends a history entry. *)
Lemma no_op_run_counterexample :
  let w := sample_world (sample_state 0 []) in
  let env := sample_env 0 (py "0 cars") in
  observe (U := ascii_tables) env = Total (stored_total w) /\
  ~ same_but_last_check
      (load_data (storage w))
      (load_data (storage (snd (invoke (U := ascii_tables) sample_url env w)))).
Proof.
  split; [reflexivity|].
  intros (_ & Hhistory & _). vm_compute in Hhistory. discriminate.
Qed.

Lemma status_iff_multiple_of_50_witness :
  let w := sample_world (sample_state 12 (repeat (sample_entry 12) 50)) in
  let sent :=
    posted (run_events (U := ascii_tables) sample_url
              (sample_env 0 (py "12 cars")) w) in
  (exists m, In m sent /\ is_status_update m = true) <->
  (exists k, (0 < k)%nat /\
             List.length (history (load_data (storage w))) = (50 * k)%nat).
Proof.
  apply (status_iff_multiple_of_50 (U := ascii_tables) sample_url
           (sample_env 0 (py "12 cars"))
           (sample_world (sample_state 12 (repeat (sample_entry 12) 50)))
           12); reflexivity.
Defined.

Lemma failed_send_still_persists_witness :
  exists doc message,
    run_events (U := ascii_tables) sample_url (sample_env 0 (py "12 cars"))
      (sample_world (sample_state 10 [])) =
    [SessionStarted; Posted message false; Saved doc Written; SessionQuit] /\
    last_total doc = 12 /\
    map change (history doc) = [Some 2].
Proof.
  destruct (failed_send_still_persists (U := ascii_tables) sample_url
              (sample_env 0 (py "12 cars")) (sample_world (sample_state 10 []))
              12)
    as ((stamp & checked & message & delivered & _ & Hd & Hev & _ & _) & Hfalse).
  - discriminate.
  - reflexivity.
  - discriminate.
  - eexists. exists message. split; [|split].
    + rewrite Hev. rewrite Hd. rewrite (Hfalse message _ (py "HTTPError")).
      * reflexivity.
      * reflexivity.
    + reflexivity.
    + reflexivity.
Defined.

Lemma unreadable_counter_warns_witness :
  posted (run_events (U := ascii_tables) sample_url (sample_env 0 [])
            (sample_world (sample_state 10 []))) =
  [CounterWarning sample_url] /\
  storage (snd (invoke (U := ascii_tables) sample_url (sample_env 0 [])
                  (sample_world (sample_state 10 [])))) =
  Document (sample_state 10 []).
Proof.
  destruct (unreadable_counter_warns (U := ascii_tables) sample_url
              (sample_env 0 []) (sample_world (sample_state 10 [])) eq_refl)
    as ((delivered & Hev) & _ & Hfile & _ & _).
  split; [|exact Hfile]. rewrite Hev. reflexivity.
Defined.


(** A stored total of zero with a full history arises from the monitor
    itself: the counter drops to zero on a capped history, and the next
    run, taking the first-run path, leaves 101 entries in the file. *)
Example cap_exceeded_after_drop_to_zero :
  let w0 := sample_world (sample_state 5 (repeat (sample_entry 5) 100)) in
  let w1 := snd (invoke (U := ascii_tables) sample_url
                   (sample_env 0 (py "0 cars")) w0) in
  let w2 := snd (invoke (U := ascii_tables) sample_url
                   (sample_env 20 (py "7 cars")) w1) in
  map (fun w => (stored_total w, List.length (history (load_data (storage w)))))
      [w0; w1; w2]
  = [(5, 100%nat); (0, 100%nat); (7, 101%nat)].
Proof. vm_compute. reflexivity. Qed.

(** The trace of a run that sees the counter go from 10 to 12 while the
    Telegram API answers 500. *)
Example change_run_trace :
  map (fun e => match e with
                | Posted m sent => (header_of m, sent)
                | _ => (None, true)
                end)
      (run_events (U := ascii_tables) sample_url (sample_env 0 (py "12 cars"))
         (sample_world (sample_state 10 [])))
  = [(None, true); (Some IncreaseHeader, false); (None, true); (None, true)].
Proof. vm_compute. reflexivity. Qed.

(** * Further properties of the code *)

(** ** Reading the counter *)

Section CounterFacts.
Context {U : Unicode}.

Lemma digits_value_bounds (s : pystr) :
  decimal_tables U ->
  0 <= digits_value s < 10 ^ Z.of_nat (List.length s).
Proof.
  intros Htab. induction s as [|c s IH].
  - simpl. lia.
  - cbn [digits_value List.length]. rewrite Nat2Z.inj_succ, Z.pow_succ_r by lia.
    assert (Hd : 0 <= match to_decimal c with Some d => d | None => 0 end <= 9).
    { destruct (to_decimal c) as [d|] eqn:Hc; [exact (Htab c d Hc)|lia]. }
    revert Hd IH.
    generalize (match to_decimal c with Some d => d | None => 0 end).
    generalize (digits_value s).
    generalize (10 ^ Z.of_nat (List.length s)).
    intros p v d Hd IH. nia.
Qed.

Lemma findall_no_digit (text : pystr) :
  existsb re_digit text = false -> findall_digits text = [].
Proof.
  unfold findall_digits. induction text as [|c text IH]; [reflexivity|].
  cbn [existsb findall_from]. intros H. apply orb_false_iff in H.
  destruct H as [Hc Ht]. rewrite Hc. exact (IH Ht).
Qed.

(** X1: the step of lines 130-138 finds no number exactly when the text has
    no decimal digit: only then are the fallbacks consulted. *)
Theorem extract_total_none_iff (text : pystr) :
  extract_total (Some text) = Ok None <-> existsb re_digit text = false.
Proof.
  split.
  - intros Hnone. destruct (existsb re_digit text) eqn:Hd; [|reflexivity].
    destruct (findall_digits_first text Hd) as (run & tl & _ & Hfind).
    cbn [extract_total] in Hnone. rewrite Hfind in Hnone.
    destruct text; [discriminate|]. cbn [truthy] in Hnone.
    destruct (py_int run); discriminate.
  - intros Hd. cbn [extract_total]. rewrite (findall_no_digit text Hd).
    destruct (truthy text); reflexivity.
Qed.

Lemma leading_digits_firstn (n k : nat) (s : pystr) :
  (k <= leading_digits n s)%nat ->
  List.length (firstn k s) = k /\ forallb re_digit (firstn k s) = true.
Proof.
  revert k s. induction n as [|n IH]; intros k s Hk.
  - destruct s; cbn in Hk; assert (k = O) by lia; subst; split; reflexivity.
  - destruct s as [|c s]; cbn [leading_digits] in Hk.
    + assert (k = O) by lia. subst. split; reflexivity.
    + destruct (re_digit c) eqn:Hc.
      * destruct k as [|k]; [split; reflexivity|].
        destruct (IH k s) as [Hl Hd]; [lia|].
        cbn [firstn List.length forallb]. rewrite Hl, Hc, Hd. split; reflexivity.
      * assert (k = O) by lia. subst. split; reflexivity.
Qed.

Lemma leading_digits_le (n : nat) (s : pystr) : (leading_digits n s <= n)%nat.
Proof.
  revert s. induction n as [|n IH]; intros s; destruct s as [|c s]; cbn; try lia.
  destruct (re_digit c); [specialize (IH s)|]; lia.
Qed.

Lemma group_of_sound (n : nat) (s g : pystr) :
  group_of n s = Some g ->
  exists k, (1 <= k <= n)%nat /\ g = firstn k s /\
            spaces_then_keyword (skipn k s) = true.
Proof.
  induction n as [|n IH]; cbn [group_of]; [discriminate|].
  destruct (spaces_then_keyword (skipn (S n) s)) eqn:Hk.
  - intros [= <-]. exists (S n). repeat split; [lia|lia|exact Hk].
  - intros H. destruct (IH H) as (k & Hk1 & Hg & Hs).
    exists k. repeat split; [lia|lia|exact Hg|exact Hs].
Qed.

Lemma pystr_prefix_app (p s : pystr) :
  pystr_prefix p s = true -> exists rest, s = p ++ rest.
Proof.
  revert s. induction p as [|a p IH]; intros s H.
  - exists s. reflexivity.
  - destruct s as [|b s]; [discriminate|]. cbn [pystr_prefix] in H.
    apply andb_prop in H. destruct H as [Hab Hp].
    apply N.eqb_eq in Hab. subst b.
    destruct (IH s Hp) as (rest & ->). exists rest. reflexivity.
Qed.

Lemma spaces_then_keyword_sound (s : pystr) :
  spaces_then_keyword s = true ->
  exists spaces keyword rest,
    s = spaces ++ keyword ++ rest /\
    forallb isspace spaces = true /\
    In keyword keywords.
Proof.
  induction s as [|c s IH]; cbn [spaces_then_keyword]; intros H;
    apply orb_prop in H; destruct H as [H|H].
  - apply existsb_exists in H. destruct H as (k & Hin & Hp).
    destruct (pystr_prefix_app k [] Hp) as (rest & Hs).
    exists [], k, rest. repeat split; auto.
  - discriminate.
  - apply existsb_exists in H. destruct H as (k & Hin & Hp).
    destruct (pystr_prefix_app k (c :: s) Hp) as (rest & Hs).
    exists [], k, rest. repeat split; auto.
  - apply andb_prop in H. destruct H as [Hc Hs].
    destruct (IH Hs) as (spaces & k & rest & -> & Hsp & Hin).
    exists (c :: spaces), k, rest. cbn [forallb app]. rewrite Hc, Hsp.
    repeat split; auto.
Qed.

(** X3: group 1 of the page-source pattern: one to six decimal digits of the
    source, followed by white space, if any, and one of the keywords. *)
Theorem re_search_counter_sound (src g : pystr) :
  re_search_counter src = Some g ->
  exists before spaces keyword after,
    src = before ++ g ++ spaces ++ keyword ++ after /\
    (1 <= List.length g <= 6)%nat /\
    forallb re_digit g = true /\
    forallb isspace spaces = true /\
    In keyword keywords.
Proof.
  induction src as [|c src IH]; cbn [re_search_counter].
  - unfold match_here. cbn. discriminate.
  - destruct (match_here (c :: src)) as [g'|] eqn:Hm.
    + intros [= <-]. unfold match_here in Hm.
      destruct (group_of_sound _ _ _ Hm) as (k & Hk & Hg & Hs).
      destruct (leading_digits_firstn 6 k (c :: src)) as [Hl Hd]; [lia|].
      pose proof (leading_digits_le 6 (c :: src)).
      destruct (spaces_then_keyword_sound _ Hs)
        as (spaces & keyword & after & Hrest & Hsp & Hin).
      exists [], spaces, keyword, after. rewrite Hg, <- Hrest.
      cbn [app]. rewrite firstn_skipn, Hl. repeat split; auto; lia.
    + intros H.
      destruct (IH H) as (before & spaces & keyword & after & Hsrc & Hrest).
      exists (c :: before), spaces, keyword, after. rewrite Hsrc.
      split; [reflexivity|exact Hrest].
Qed.

Lemma int_of_nonneg (s : pystr) : decimal_tables U -> 0 <= int_of s.
Proof.
  intros Htab. rewrite int_of_value.
  apply (digits_value_bounds s Htab).
Qed.

Lemma re_search_counter_length (src g : pystr) :
  re_search_counter src = Some g -> (List.length g <= 6)%nat.
Proof.
  induction src as [|c src IH]; cbn [re_search_counter].
  - unfold match_here. cbn. discriminate.
  - destruct (match_here (c :: src)) as [g'|] eqn:Hm; [|exact IH].
    intros [= <-]. unfold match_here in Hm.
    destruct (group_of_sound _ _ _ Hm) as (k & Hk & -> & _).
    pose proof (leading_digits_le 6 (c :: src)).
    rewrite length_firstn. lia.
Qed.

(** X4: the total read from the page source is below one million. *)
Theorem source_total_below_million (page : WebDriver) (t : Z) :
  decimal_tables U ->
  source_total page = Some t ->
  0 <= t < 1000000.
Proof.
  intros Htab. unfold source_total.
  destruct (driver_page_source page) as [src|]; [|discriminate].
  destruct (re_search_counter src) as [g|] eqn:Hs; [|discriminate].
  unfold py_int. destruct (int_refuses g); [discriminate|].
  intros [= <-].
  pose proof (re_search_counter_length src g Hs) as Hlen.
  rewrite int_of_value.
  pose proof (digits_value_bounds g Htab) as Hb.
  assert (10 ^ Z.of_nat (List.length g) <= 10 ^ 6)
    by (apply Z.pow_le_mono_r; lia).
  lia.
Qed.

Lemma source_total_nonneg (page : WebDriver) (t : Z) :
  decimal_tables U -> source_total page = Some t -> 0 <= t.
Proof.
  intros Htab. unfold source_total.
  destruct (driver_page_source page) as [src|]; [|discriminate].
  destruct (re_search_counter src) as [g|]; [|discriminate].
  unfold py_int. destruct (int_refuses g); [discriminate|].
  intros [= <-]. apply int_of_nonneg. exact Htab.
Qed.

Lemma first_candidate_total_nonneg (elems : list WebElement) (t : Z) :
  decimal_tables U ->
  first_candidate_total elems = Ok (Some t) -> 0 <= t.
Proof.
  intros Htab. induction elems as [|elem rest IH]; cbn [first_candidate_total].
  - discriminate.
  - destruct (elem_text elem) as [x|]; cbn [bind]; [|discriminate].
    destruct (negb (truthy (strip x))); [exact IH|].
    destruct (findall_digits (strip x)) as [|first tl]; [exact IH|].
    unfold py_int. destruct (int_refuses first); cbn [bind]; [discriminate|].
    intros [= <-]. apply int_of_nonneg. exact Htab.
Qed.

Lemma get_total_results_nonneg (driver : option WebDriver) (t : Z) :
  decimal_tables U ->
  get_total_results driver = Some t ->
  0 <= t.
Proof.
  intros Htab. unfold get_total_results.
  destruct driver as [page|]; [|discriminate].
  unfold get_total_results_body.
  destruct (driver_get page); cbn [bind]; [|discriminate].
  destruct (find_total_text page) as [total_text|]; cbn [bind]; [|discriminate].
  destruct (extract_total total_text) as [[n|]|] eqn:He; cbn [bind];
    [| |discriminate].
  - intros [= <-]. unfold extract_total in He.
    destruct total_text as [x|]; [|discriminate].
    destruct (truthy x); [|discriminate].
    destruct (findall_digits x) as [|first tl]; [discriminate|].
    unfold py_int in He. destruct (int_refuses first); cbn [bind] in He;
      [discriminate|].
    injection He as <-. apply int_of_nonneg. exact Htab.
  - destruct (driver_find_elements page XPATH candidates_xpath) as [cands|];
      cbn [bind].
    + destruct (first_candidate_total cands) as [[n|]|] eqn:Hc.
      * intros [= <-]. exact (first_candidate_total_nonneg cands n Htab Hc).
      * intros H. exact (source_total_nonneg page t Htab H).
      * intros H. exact (source_total_nonneg page t Htab H).
    + intros H. exact (source_total_nonneg page t Htab H).
Qed.

(** X5: whatever path finds it, the total that [get_total_results] returns is
    not negative; so neither is a total that a run observes. *)
Theorem total_never_negative (driver : option WebDriver) (env : Env) (t : Z) :
  decimal_tables U ->
  get_total_results driver = Some t \/ observe env = Total t ->
  0 <= t.
Proof.
  intros Htab [Hres|Hobs].
  - exact (get_total_results_nonneg driver t Htab Hres).
  - destruct (observe_total env t Hobs) as (page & _ & _ & Hres).
    exact (get_total_results_nonneg (Some page) t Htab Hres).
Qed.

Lemma first_located_none (page : WebDriver) (selectors : list string) :
  first_located page selectors = None <->
  Forall (fun selector => raises (located_text page selector)) selectors.
Proof.
  induction selectors as [|selector rest IH]; cbn [first_located].
  - split; [constructor|reflexivity].
  - fold (located_text page selector).
    destruct (located_text page selector) as [x|e] eqn:Hl.
    + split; [discriminate|]. intros H. inversion H as [|? ? [e He] _]; subst.
      congruence.
    + rewrite IH. split.
      * intros H. constructor; [exists e; exact Hl|exact H].
      * intros H. inversion H; assumption.
Qed.

(** X2: the selector cascade is a first-success search: the text comes from
    the first selector whose wait and text access do not raise, empty or
    not, and exceptions of earlier selectors are swallowed. *)
Theorem first_located_first_success (page : WebDriver) (selectors : list string)
    (text : pystr) :
  first_located page selectors = Some text <->
  exists before selector after,
    selectors = before ++ selector :: after /\
    Forall (fun s => raises (located_text page s)) before /\
    located_text page selector = Ok text.
Proof.
  induction selectors as [|selector rest IH]; cbn [first_located].
  - split; [discriminate|].
    intros (before & s & after & H & _). destruct before; discriminate.
  - fold (located_text page selector).
    destruct (located_text page selector) as [x|e] eqn:Hl.
    + split.
      * intros [= <-]. exists [], selector, rest. repeat split; auto.
      * intros (before & s & after & Hs & Hb & Hok).
        destruct before as [|b before]; cbn in Hs; injection Hs as -> ->.
        -- congruence.
        -- inversion Hb as [|? ? [e He] _]; subst. congruence.
    + rewrite IH. split.
      * intros (before & s & after & -> & Hb & Hok).
        exists (selector :: before), s, after. repeat split; auto.
        constructor; [exists e; exact Hl|exact Hb].
      * intros (before & s & after & Hs & Hb & Hok).
        destruct before as [|b before]; cbn in Hs; injection Hs as -> ->.
        -- congruence.
        -- exists before, s, after. inversion Hb; subst. repeat split; auto.
Qed.

(** X6: an exception in the scan of keyword elements (lines 120-128) is not
    caught on the spot: it ends [get_total_results] with [None], and the
    two fallbacks are not tried, whatever the page source holds.  The same
    holds when loading the page raises. *)
Theorem scan_failure_skips_fallbacks (page : WebDriver) (e : pystr) :
  driver_get page = Raise e \/
  (text_found (first_located page total_selectors) = false /\
   (driver_find_elements page XPATH possible_xpath = Raise e \/
    exists elems,
      driver_find_elements page XPATH possible_xpath = Ok elems /\
      first_with_digit elems = Raise e)) ->
  get_total_results (Some page) = None.
Proof.
  unfold get_total_results, get_total_results_body.
  intros [Hget|(Hnot & Hscan)].
  - rewrite Hget. reflexivity.
  - destruct (driver_get page); [|reflexivity]. cbn [bind].
    unfold find_total_text. rewrite Hnot.
    destruct Hscan as [Hq|(elems & Hq & Hs)]; rewrite Hq; cbn [bind];
      [reflexivity|]. rewrite Hs. reflexivity.
Qed.

(** X7: an exception in the fallback over candidate elements (lines 142-155)
    is swallowed: the page source is searched next. *)
Theorem candidate_failure_falls_back (page : WebDriver) (total_text : option pystr)
    (e : pystr) :
  driver_get page = Ok tt ->
  find_total_text page = Ok total_text ->
  extract_total total_text = Ok None ->
  driver_find_elements page XPATH candidates_xpath = Raise e \/
  (exists elems,
     driver_find_elements page XPATH candidates_xpath = Ok elems /\
     first_candidate_total elems = Raise e) ->
  get_total_results (Some page) = source_total page.
Proof.
  intros Hget Htext Hnone Hcand.
  unfold get_total_results, get_total_results_body.
  rewrite Hget; cbn [bind]. rewrite Htext; cbn [bind]. rewrite Hnone.
  cbn [bind]. destruct Hcand as [Hq|(elems & Hq & Hs)]; rewrite Hq; cbn [bind];
    [reflexivity|]. rewrite Hs. reflexivity.
Qed.

End CounterFacts.

(** ** Listings and the notification *)

Section ListingFacts.
Context {U : Unicode}.

Lemma find_title_nonempty (listing : WebElement) (selectors : list string) :
  find_title listing selectors <> Some [].
Proof.
  induction selectors as [|sel rest IH]; cbn [find_title]; [discriminate|].
  destruct (elem_find_text listing CSS_SELECTOR sel) as [title|]; [|exact IH].
  destruct title; cbn [truthy]; [exact IH|discriminate].
Qed.

Lemma find_price_nonempty (listing : WebElement) (selectors : list string) :
  find_price listing selectors <> Some [].
Proof.
  induction selectors as [|sel rest IH]; cbn [find_price]; [discriminate|].
  destruct (elem_find_text listing CSS_SELECTOR sel) as [price|]; [|exact IH].
  destruct price; cbn [truthy andb]; [exact IH|].
  destruct (_ || _); [discriminate|exact IH].
Qed.

Lemma cars_of_spec (listings : list WebElement) :
  (List.length (cars_of listings) <= List.length listings)%nat /\
  Forall well_formed_car (cars_of listings).
Proof.
  induction listings as [|listing rest [IHl IHf]]; cbn [cars_of List.length].
  - split; [lia|constructor].
  - unfold car_of. destruct (elem_text listing) as [text|]; cbn [bind].
    + cbn [List.length]. split; [lia|]. constructor; [|exact IHf].
      unfold well_formed_car. cbn [car_details car_title car_price car_link].
      repeat split.
      * rewrite length_firstn. lia.
      * apply find_title_nonempty.
      * apply find_price_nonempty.
      * unfold find_link. destruct (elem_find_href listing) as [[[|c l]|]|];
          cbn [truthy]; discriminate.
    + split; [lia|exact IHf].
Qed.

(** X8: [get_new_listings] never raises and gives at most five cars; the
    details of a car have at most 300 characters, and a title, price or
    link that is present is not empty. *)
Theorem new_listings_bounded (driver : option WebDriver) :
  (List.length (get_new_listings driver) <= 5)%nat /\
  Forall well_formed_car (get_new_listings driver).
Proof.
  unfold get_new_listings. destruct driver as [page|]; [|split; [cbn; lia|constructor]].
  destruct (find_listings page listing_selectors []) as [listings|];
    [|split; [cbn; lia|constructor]].
  destruct (cars_of_spec (firstn 5 listings)) as [Hl Hf].
  split; [|exact Hf]. rewrite length_firstn in Hl. lia.
Qed.

Lemma car_lines_length (i : nat) (cars : list Car) :
  List.length (car_lines i cars) = List.length cars.
Proof.
  revert i. induction cars as [|car rest IH]; intros i; cbn; [reflexivity|].
  rewrite IH. reflexivity.
Qed.

Lemma car_lines_nth (cars : list Car) :
  forall i k line,
    nth_error (car_lines i cars) k = Some line ->
    exists car,
      nth_error cars k = Some car /\
      line_title line = option_map (pair (i + k)%nat) (present (car_title car)) /\
      line_price line = present (car_price car) /\
      line_link line = present (car_link car).
Proof.
  induction cars as [|car rest IH]; intros i k line; cbn [car_lines].
  - destruct k; discriminate.
  - destruct k as [|k]; cbn [nth_error].
    + intros [= <-]. exists car. rewrite Nat.add_0_r. repeat split.
    + intros H. destruct (IH (S i) k line H) as (car' & Hnth & Ht & Hp & Hl).
      exists car'. rewrite Ht, Nat.add_succ_r. repeat split; assumption.
Qed.

Lemma nth_error_firstn_some {A} (n : nat) (l : list A) :
  forall k x, nth_error (firstn n l) k = Some x -> nth_error l k = Some x.
Proof.
  revert l. induction n as [|n IH]; intros l k x; cbn [firstn].
  - destruct k; discriminate.
  - destruct l as [|a l]; [destruct k; discriminate|].
    destruct k as [|k]; cbn [nth_error]; [auto|apply IH].
Qed.

(** X9: the section of new cars of a change notification is there exactly
    when the total went up and listings were found; it covers the first
    three listings at most.  The number of a car is its position among
    them, from 1, and is printed with the title only: a car without a
    title shows no number, and the next car keeps its own. *)
Theorem notification_cars_section (env : Env) (m : Monitor)
    (old_total new_total : Z) (new_listings : list Car) (w : World) :
  match cars_section
          (fst (format_notification env m old_total new_total new_listings w))
  with
  | Some lines =>
      0 < new_total - old_total /\ new_listings <> [] /\
      List.length lines = Nat.min 3 (List.length new_listings) /\
      (forall k line,
         nth_error lines k = Some line ->
         exists car,
           nth_error new_listings k = Some car /\
           line_title line =
             option_map (pair (S k)) (present (car_title car)) /\
           line_price line = present (car_price car) /\
           line_link line = present (car_link car))
  | None => new_total - old_total <= 0 \/ new_listings = []
  end.
Proof.
  unfold format_notification, now. cbn [fst cars_section].
  destruct new_listings as [|car rest]; [right; reflexivity|].
  destruct (Z.gtb_spec (new_total - old_total) 0) as [Hpos|Hle].
  - rewrite car_lines_length, length_firstn.
    repeat split; [lia|discriminate|].
    intros k line Hnth.
    destruct (car_lines_nth _ 1 k line Hnth) as (car' & Hc & Ht & Hp & Hl).
    exists car'. split; [exact (nth_error_firstn_some 3 _ k car' Hc)|].
    repeat split; assumption.
  - left. lia.
Qed.

(** X10: [send_telegram_message] answers [True] exactly when the API responds
    with a status outside 400-599: a redirect or an informational status
    counts as sent.  The state file and the clock are not touched. *)
Theorem send_true_iff (env : Env) (message : Message) (w : World) :
  (fst (send_telegram_message env message w) = true <->
   exists status_code,
     telegram env message = Response status_code /\
     (status_code < 400 \/ 600 <= status_code)) /\
  storage (snd (send_telegram_message env message w)) = storage w /\
  ticks (snd (send_telegram_message env message w)) = ticks w.
Proof.
  rewrite send_telegram_message_result. cbv zeta. cbn [fst snd storage ticks].
  split; [|auto].
  destruct (telegram env message) as [c|e].
  - split.
    + intros H. exists c. split; [reflexivity|].
      apply negb_true_iff, andb_false_iff in H. lia.
    + intros (c' & [= <-] & Hc). apply negb_true_iff, andb_false_iff. lia.
  - split; [discriminate|]. intros (c & Hc & _). discriminate.
Qed.

End ListingFacts.


Section RunShape.
Context {U : Unicode}.

Lemma invoke_chrome_raises (config_url : string) (env : Env) (w : World) (e : pystr) :
  chrome env = Raise e ->
  invoke config_url env w =
  (idle config_url (load_data (storage w)),
   later w 0 (storage w)
     [Posted (ErrorReport (firstn 200 e))
        (delivered env (ErrorReport (firstn 200 e)) w)]).
Proof.
  intros Hc. unfold invoke, run, run_body, setup_driver, init. rewrite Hc.
  unfold delivered, send_telegram_message, close_driver, emit. reflexivity.
Qed.

Lemma invoke_wait_raises (config_url : string) (env : Env) (w : World)
    (session : WebDriver) (e : pystr) :
  chrome env = Ok session ->
  driver_implicitly_wait session = Raise e ->
  invoke config_url env w =
  (idle config_url (load_data (storage w)),
   later w 0 (storage w)
     [SessionStarted;
      Posted (ErrorReport (firstn 200 e))
        (delivered env (ErrorReport (firstn 200 e)) w);
      SessionQuit]).
Proof.
  intros Hc Hw. unfold invoke, run, run_body, setup_driver, init.
  rewrite Hc, Hw.
  unfold delivered, send_telegram_message, close_driver, set_driver, emit, idle, later.
  cbn. rewrite <- !app_assoc. reflexivity.
Qed.

(** Every invocation is one of six runs; a property of all six holds of
    every invocation. *)
Lemma invoke_elim (config_url : string) (env : Env) (w : World)
    (P : Monitor * World -> Prop) :
  let s := load_data (storage w) in
  (forall e,
     chrome env = Raise e ->
     P (idle config_url s,
        later w 0 (storage w)
          [Posted (ErrorReport (firstn 200 e))
             (delivered env (ErrorReport (firstn 200 e)) w)])) ->
  (forall session e,
     chrome env = Ok session ->
     driver_implicitly_wait session = Raise e ->
     P (idle config_url s,
        later w 0 (storage w)
          [SessionStarted;
           Posted (ErrorReport (firstn 200 e))
             (delivered env (ErrorReport (firstn 200 e)) w);
           SessionQuit])) ->
  (observe env = CounterUnreadable ->
   P (idle config_url s,
      later w 0 (storage w)
        [SessionStarted;
         Posted (CounterWarning config_url)
           (delivered env (CounterWarning config_url) w);
         SessionQuit])) ->
  (forall t,
     observe env = Total t -> stored_total w = 0 ->
     P (idle config_url (first_run_doc env w t),
        later w 2 (file_after (disk env) (first_run_doc env w t) (storage w))
          [SessionStarted;
           Saved (first_run_doc env w t) (disk env);
           Posted (Welcome t config_url)
             (delivered env (Welcome t config_url) w);
           SessionQuit])) ->
  (forall t section,
     observe env = Total t -> stored_total w <> 0 -> t - stored_total w <> 0 ->
     let message :=
       ChangeNotification
         (if t - stored_total w >? 0 then IncreaseHeader else DecreaseHeader)
         t (t - stored_total w) config_url section
         (strftime_HM_dmY (clock env (ticks w))) in
     P (idle config_url (change_doc env w t),
        later w 3 (file_after (disk env) (change_doc env w t) (storage w))
          [SessionStarted;
           Posted message (delivered env message w);
           Saved (change_doc env w t) (disk env);
           SessionQuit])) ->
  (forall t,
     observe env = Total t -> stored_total w <> 0 -> t - stored_total w = 0 ->
     let check_count := List.length (history s) in
     let message :=
       StatusUpdate t check_count (strftime_HM (clock env (ticks w))) in
     P (idle config_url s,
        if ((check_count mod 50 =? 0) && (0 <? check_count))%nat
        then later w 1 (storage w)
               [SessionStarted; Posted message (delivered env message w);
                SessionQuit]
        else later w 0 (storage w) [SessionStarted; SessionQuit])) ->
  P (invoke config_url env w).
Proof.
  intros s Hchrome Hwait Hnone Hfirst Hchange Hsame. subst s.
  destruct (chrome env) as [session|e] eqn:Hc.
  2:{ rewrite (invoke_chrome_raises config_url env w e Hc).
      apply Hchrome. reflexivity. }
  destruct (driver_implicitly_wait session) as [[]|e] eqn:Hw.
  2:{ rewrite (invoke_wait_raises config_url env w session e Hc Hw).
      apply (Hwait session e); [reflexivity|exact Hw]. }
  destruct (observe env) as [| |t] eqn:Hobs.
  - unfold observe in Hobs. rewrite Hc, Hw in Hobs.
    destruct (get_total_results (Some session)); discriminate.
  - rewrite (invoke_unreadable config_url env w Hobs). apply Hnone. reflexivity.
  - destruct (Z.eq_dec (stored_total w) 0) as [H0|Hnz].
    + rewrite (invoke_first_run config_url env w t Hobs H0).
      apply (Hfirst t); [reflexivity|exact H0].
    + destruct (Z.eq_dec (t - stored_total w) 0) as [Hd|Hd].
      * rewrite (invoke_no_change config_url env w t Hobs Hnz Hd).
        apply (Hsame t); [reflexivity|exact Hnz|exact Hd].
      * destruct (invoke_change config_url env w t Hobs Hnz Hd) as (section & Hrun).
        cbv zeta in Hrun. rewrite Hrun.
        apply (Hchange t section); [reflexivity|exact Hnz|exact Hd].
Qed.

Lemma later_events (w : World) (n : nat) (f : File) (evs : list Event) :
  skipn (List.length (trace w)) (trace (later w n f evs)) = evs.
Proof.
  unfold later. cbn [trace]. rewrite skipn_app, skipn_all, Nat.sub_diag.
  reflexivity.
Qed.

End RunShape.

Ltac every_run :=
  unfold run_events;
  match goal with
  | |- context [invoke ?u ?e ?w] =>
      pattern (invoke u e w); apply invoke_elim; cbv zeta; intros
  end;
  try match goal with
      | |- context [if ?c then later _ _ _ _ else _] => destruct c
      end;
  cbn [fst snd idle data driver url storage later];
  rewrite ?later_events.

(** ** Every run *)

Section EveryRun.
Context {U : Unicode}.

(** X11: the session is released on every exit path: after [run] the monitor
    holds no session, and a session that was started was quit. *)
Theorem session_always_released (config_url : string) (env : Env) (w : World) :
  driver (fst (invoke config_url env w)) = None /\
  count_quit (run_events config_url env w) =
  count_started (run_events config_url env w) /\
  (count_started (run_events config_url env w) <= 1)%nat.
Proof. every_run; cbn; auto. Qed.

(** X12: a run posts at most one message and saves at most once, and a saved
    document carries the total that the run has just read. *)
Theorem one_message_one_save (config_url : string) (env : Env) (w : World) :
  (List.length (posted (run_events config_url env w)) <= 1)%nat /\
  (List.length (saved (run_events config_url env w)) <= 1)%nat /\
  (forall doc,
     In doc (saved (run_events config_url env w)) ->
     observe env = Total (last_total doc)).
Proof.
  every_run; cbn; (split; [lia|split; [lia|]]); intros doc Hin;
    try contradiction; destruct Hin as [<-|[]]; assumption.
Qed.

(** X13: a run only appends to the history and drops its oldest entries; it
    never touches [seen_car_ids], and what it leaves in the state file is
    the state it holds in memory, or the file as it was, or nothing
    readable. *)
Theorem run_appends_only (config_url : string) (env : Env) (w : World) :
  let s := load_data (storage w) in
  let r := invoke config_url env w in
  (exists dropped appended,
     (List.length appended <= 1)%nat /\
     history s ++ appended = dropped ++ history (data (fst r))) /\
  seen_car_ids (data (fst r)) = seen_car_ids s /\
  (storage (snd r) = Document (data (fst r)) \/
   storage (snd r) = storage w \/
   storage (snd r) = Unparsable).
Proof.
  cbv zeta. every_run;
    try (split; [exists [], []; rewrite app_nil_r; split; [cbn; lia|reflexivity]
                |split; [reflexivity|right; left; reflexivity]]).
  - split; [|split; [reflexivity|]].
    + eexists [], [_]. split; [cbn; lia|reflexivity].
    + destruct (disk env); cbn; auto.
  - split; [|split; [reflexivity|]].
    + unfold change_doc. cbn [history]. unfold last_n.
      eexists (firstn _ _), [_]. split; [cbn; lia|].
      rewrite firstn_skipn. reflexivity.
    + destruct (disk env); cbn; auto.
Qed.

(** X14: when the session cannot be started, the run posts the error report
    with at most 200 characters of the exception and changes nothing. *)
Theorem setup_failure_reported (config_url : string) (env : Env) (w : World)
    (e : pystr) :
  setup_raises env e ->
  let r := invoke config_url env w in
  posted (run_events config_url env w) = [ErrorReport (firstn 200 e)] /\
  (List.length (firstn 200 e) <= 200)%nat /\
  saved (run_events config_url env w) = [] /\
  data (fst r) = load_data (storage w) /\
  storage (snd r) = storage w.
Proof.
  intros [Hc|(session & Hc & Hw)] r; subst r; unfold run_events.
  - rewrite (invoke_chrome_raises config_url env w e Hc).
    cbn [fst snd idle data storage later]. rewrite later_events, length_firstn.
    repeat split. lia.
  - rewrite (invoke_wait_raises config_url env w session e Hc Hw).
    cbn [fst snd idle data storage later]. rewrite later_events, length_firstn.
    repeat split. lia.
Qed.

End EveryRun.

(** ** From one run to the next *)

Section Series.
Context {U : Unicode}.

Lemma stored_after_reading (config_url : string) (env : Env) (w : World) (t : Z) :
  observe env = Total t ->
  disk env = Written ->
  stored_total (snd (invoke config_url env w)) = t.
Proof.
  intros Hobs Hdisk. unfold stored_total at 1.
  destruct (Z.eq_dec (stored_total w) 0) as [H0|Hnz].
  - rewrite (invoke_first_run config_url env w t Hobs H0), Hdisk. reflexivity.
  - destruct (Z.eq_dec (t - stored_total w) 0) as [Hd|Hd].
    + pose proof (invoke_no_change config_url env w t Hobs Hnz Hd) as Hrun.
      cbv zeta in Hrun. rewrite Hrun.
      destruct ((_ mod 50 =? 0) && _)%nat; cbn [snd storage];
        unfold stored_total in Hd; lia.
    + destruct (invoke_change config_url env w t Hobs Hnz Hd) as (section & Hrun).
      cbv zeta in Hrun. rewrite Hrun, Hdisk. reflexivity.
Qed.

(** X15: after a run that reads a non-zero total and can write the state file,
    the stored total is the total read, and a second run that reads the
    same total is silent but for a status update: it saves nothing and
    leaves the file alone. *)
Theorem rerun_is_quiet (config_url : string) (env1 env2 : Env) (w : World) (t : Z) :
  observe env1 = Total t ->
  t <> 0 ->
  disk env1 = Written ->
  observe env2 = Total t ->
  let w1 := snd (invoke config_url env1 w) in
  stored_total w1 = t /\
  saved (run_events config_url env2 w1) = [] /\
  storage (snd (invoke config_url env2 w1)) = storage w1 /\
  (forall m, In m (posted (run_events config_url env2 w1)) ->
     is_status_update m = true).
Proof.
  intros Hobs1 Hnz Hdisk Hobs2 w1.
  assert (Hst : stored_total w1 = t)
    by exact (stored_after_reading config_url env1 w t Hobs1 Hdisk).
  assert (Hnz1 : stored_total w1 <> 0) by (rewrite Hst; exact Hnz).
  assert (Hd : t - stored_total w1 = 0) by lia.
  pose proof (invoke_no_change config_url env2 w1 t Hobs2 Hnz1 Hd) as Hrun.
  cbv zeta in Hrun. split; [exact Hst|].
  destruct ((_ mod 50 =? 0) && _)%nat in Hrun;
    erewrite run_events_app by (rewrite Hrun; reflexivity);
    rewrite Hrun; cbn; repeat split; intros m Hin;
    try contradiction; destruct Hin as [<-|[]]; reflexivity.
Qed.

(** X16: while the stored total is zero and the page shows zero, every
    run takes the first-run path again, whatever the disk does: each posts
    the welcome message and the stored total stays zero.  When every save
    succeeds, each run appends an entry and the history grows without
    bound. *)
Theorem zero_total_reinitializes (config_url : string) (envs : list Env) :
  forall w,
    stored_total w = 0 ->
    Forall (fun env => observe env = Total 0) envs ->
    let w' := invocations config_url envs w in
    stored_total w' = 0 /\
    series_posted config_url envs w =
      repeat (Welcome 0 config_url) (List.length envs) /\
    (Forall (fun env => disk env = Written) envs ->
     List.length (history (load_data (storage w'))) =
       (List.length (history (load_data (storage w))) + List.length envs)%nat).
Proof.
  induction envs as [|env rest IH]; intros w H0 Hall; cbv zeta.
  - cbn. repeat split; [exact H0|]. intros _. lia.
  - inversion Hall as [|? ? Hobs Hrest]; subst.
    pose proof (invoke_first_run config_url env w 0 Hobs H0) as Hrun.
    cbn [invocations series_posted List.length].
    erewrite run_events_app by (rewrite Hrun; reflexivity).
    assert (Hst : storage (snd (invoke config_url env w)) =
                  file_after (disk env) (first_run_doc env w 0) (storage w))
      by (rewrite Hrun; reflexivity).
    assert (Hz1 : stored_total (snd (invoke config_url env w)) = 0).
    { unfold stored_total in *. rewrite Hst.
      destruct (disk env); cbn; [reflexivity|exact H0|reflexivity]. }
    destruct (IH (snd (invoke config_url env w)) Hz1 Hrest) as (Hz & Hposted & Hlen).
    split; [exact Hz|]. split.
    + rewrite Hposted. reflexivity.
    + intros Hdisk. inversion Hdisk as [|? ? Hw Hws]; subst.
      rewrite (Hlen Hws), Hst, Hw. cbn [file_after load_data first_run_doc history].
      rewrite length_app. cbn. lia.
Qed.

(** X17: a run that saves while [json.dump] fails leaves a file that cannot be
    read: the history is lost, and the next run that reads a total starts
    over with the welcome message. *)
Theorem failed_dump_resets (config_url : string) (env env2 : Env) (w : World)
    (t t2 : Z) :
  observe env = Total t ->
  stored_total w = 0 \/ t - stored_total w <> 0 ->
  disk env = DumpFails ->
  observe env2 = Total t2 ->
  let w1 := snd (invoke config_url env w) in
  storage w1 = Unparsable /\
  load_data (storage w1) = default_state /\
  posted (run_events config_url env2 w1) = [Welcome t2 config_url].
Proof.
  intros Hobs Hpath Hdisk Hobs2 w1.
  assert (Hst : storage w1 = Unparsable).
  { subst w1. destruct (Z.eq_dec (stored_total w) 0) as [H0|Hnz].
    - rewrite (invoke_first_run config_url env w t Hobs H0), Hdisk. reflexivity.
    - destruct Hpath as [H0|Hd]; [contradiction|].
      destruct (invoke_change config_url env w t Hobs Hnz Hd) as (section & Hrun).
      cbv zeta in Hrun. rewrite Hrun, Hdisk. reflexivity. }
  split; [exact Hst|]. split; [rewrite Hst; reflexivity|].
  assert (H0 : stored_total w1 = 0) by (unfold stored_total; rewrite Hst; reflexivity).
  pose proof (invoke_first_run config_url env2 w1 t2 Hobs2 H0) as Hrun.
  erewrite run_events_app by (rewrite Hrun; reflexivity). reflexivity.
Qed.

(** X18: when the state file cannot be opened for writing, a detected change
    is not recorded: the file stays as it was and the next run that reads
    the same total notifies the same change again. *)
Theorem unwritable_file_renotifies (config_url : string) (env env2 : Env)
    (w : World) (t : Z) :
  observe env = Total t ->
  stored_total w <> 0 ->
  t - stored_total w <> 0 ->
  disk env = OpenFails ->
  observe env2 = Total t ->
  let w1 := snd (invoke config_url env w) in
  storage w1 = storage w /\
  exists header section time,
    posted (run_events config_url env2 w1) =
    [ChangeNotification header t (t - stored_total w) config_url section time].
Proof.
  intros Hobs Hnz Hd Hdisk Hobs2 w1.
  assert (Hst : storage w1 = storage w).
  { subst w1.
    destruct (invoke_change config_url env w t Hobs Hnz Hd) as (section & Hrun).
    cbv zeta in Hrun. rewrite Hrun, Hdisk. reflexivity. }
  split; [exact Hst|].
  assert (Heq : stored_total w1 = stored_total w)
    by (unfold stored_total; rewrite Hst; reflexivity).
  destruct (invoke_change config_url env2 w1 t Hobs2) as (section & Hrun);
    [rewrite Heq; exact Hnz|rewrite Heq; exact Hd|].
  cbv zeta in Hrun. rewrite Heq in Hrun.
  erewrite run_events_app by (rewrite Hrun; reflexivity).
  do 3 eexists. reflexivity.
Qed.

Lemma change_entries_sum (config_url : string) (envs : list Env) :
  forall w,
    change_runs config_url envs w = true ->
    stored_total (invocations config_url envs w) =
    stored_total w + sum_changes (change_entries config_url envs w).
Proof.
  induction envs as [|env rest IH]; intros w Hruns.
  - cbn. lia.
  - cbn [change_runs] in Hruns. apply andb_prop in Hruns.
    destruct Hruns as [Hrun Hrest].
    destruct (change_run_inv env w Hrun) as (t & Hobs & Hdisk & _ & _).
    cbn [invocations change_entries sum_changes fold_right].
    rewrite (IH _ Hrest).
    rewrite (stored_after_reading config_url env w t Hobs Hdisk).
    unfold change_entry. rewrite Hobs. cbn [change]. fold sum_changes.
    unfold sum_changes. lia.
Qed.

Lemma last_n_last_n {A} (n m : nat) (l : list A) :
  (n <= m)%nat -> last_n n (last_n m l) = last_n n l.
Proof.
  intros H. unfold last_n. rewrite length_skipn, skipn_skipn. f_equal. lia.
Qed.

Lemma last_n_app_exact {A} (l x : list A) : last_n (List.length x) (l ++ x) = x.
Proof.
  rewrite last_n_app_long by lia. apply last_n_short. lia.
Qed.

(** X19: over a series of at most 100 runs that each detect a change and
    write the file, the changes recorded in the stored history add up: the
    stored total at the end is the one at the start plus the sum of the
    [change] fields of the entries that these runs left in the file. *)
Theorem changes_add_up (config_url : string) (envs : list Env) (w : World) :
  change_runs config_url envs w = true ->
  (List.length envs <= 100)%nat ->
  let w' := invocations config_url envs w in
  stored_total w' =
  stored_total w +
  sum_changes (last_n (List.length envs) (history (load_data (storage w')))).
Proof.
  intros Hruns Hlen w'. subst w'.
  rewrite (change_entries_sum config_url envs w Hruns). f_equal. f_equal.
  destruct envs as [|env rest].
  - cbn [List.length change_entries]. unfold last_n.
    rewrite Nat.sub_0_r, skipn_all. reflexivity.
  - destruct (change_runs_storage config_url (env :: rest) w) as (doc & Hst & Hh);
      [discriminate|exact Hruns|].
    rewrite Hst. cbn [load_data]. rewrite Hh.
    rewrite last_n_last_n by exact Hlen.
    rewrite <- (change_entries_length config_url (env :: rest) w).
    symmetry. apply last_n_app_exact.
Qed.

(** X20: no series of runs makes the stored total negative. *)
Theorem stored_total_never_negative (config_url : string) (envs : list Env) :
  decimal_tables U ->
  forall w,
    0 <= stored_total w ->
    0 <= stored_total (invocations config_url envs w).
Proof.
  intros Htab. induction envs as [|env rest IH]; intros w Hw; [exact Hw|].
  cbn [invocations]. apply IH.
  assert (Hread : forall t, observe env = Total t -> 0 <= t).
  { intros t Hobs. destruct (observe_total env t Hobs) as (page & _ & _ & Hres).
    exact (get_total_results_nonneg (Some page) t Htab Hres). }
  unfold stored_total in *. every_run; try exact Hw.
  - destruct (disk env); cbn; [apply Hread; assumption|exact Hw|lia].
  - destruct (disk env); cbn; [apply Hread; assumption|exact Hw|lia].
Qed.

(** X21: the status update is not periodic in the number of checks: the count
    is the length of the history, which a run without change leaves as it
    is.  So while that length is a positive multiple of 50 -- after the cap
    is reached, for good -- every run without change posts a status
    update. *)
Theorem status_repeats_every_run (config_url : string) (envs : list Env) (k : nat) :
  forall w,
    stored_total w <> 0 ->
    (0 < k)%nat ->
    List.length (history (load_data (storage w))) = (50 * k)%nat ->
    Forall (fun env => observe env = Total (stored_total w)) envs ->
    storage (invocations config_url envs w) = storage w /\
    List.length (series_posted config_url envs w) = List.length envs /\
    Forall (fun m => is_status_update m = true) (series_posted config_url envs w).
Proof.
  induction envs as [|env rest IH]; intros w Hnz Hk Hlen Hall.
  - cbn. repeat split. constructor.
  - inversion Hall as [|? ? Hobs Hrest]; subst.
    pose proof (invoke_no_change config_url env w _ Hobs Hnz (Z.sub_diag _)) as Hrun.
    cbv zeta in Hrun. rewrite Hlen in Hrun.
    replace ((50 * k) mod 50 =? 0)%nat with true in Hrun
      by (symmetry; apply Nat.eqb_eq; rewrite Nat.mul_comm; apply Nat.Div0.mod_mul).
    replace (0 <? 50 * k)%nat with true in Hrun
      by (symmetry; apply Nat.ltb_lt; lia).
    cbn [andb] in Hrun.
    assert (Hst : storage (snd (invoke config_url env w)) = storage w)
      by (rewrite Hrun; reflexivity).
    cbn [invocations series_posted].
    erewrite run_events_app by (rewrite Hrun; reflexivity).
    destruct (IH (snd (invoke config_url env w))) as (Hs & Hl & Hf).
    { unfold stored_total. rewrite Hst. exact Hnz. }
    { exact Hk. }
    { rewrite Hst. exact Hlen. }
    { unfold stored_total in *. rewrite Hst. exact Hrest. }
    split; [rewrite Hs; exact Hst|]. split.
    + cbn. rewrite Hl. reflexivity.
    + cbn. constructor; [reflexivity|exact Hf].
Qed.

(** X22: [main] exits with status 1, without starting a session, posting or
    writing, exactly when the URL, the bot token or the chat id is unset
    or empty; otherwise it runs the monitor on the configured URL, inside
    Yad2 or not. *)
Theorem main_requires_config (environ : Environ) (env : Env) (w : World) :
  (is_set (CAR_LISTING_URL environ) = false \/
   is_set (TELEGRAM_BOT_TOKEN environ) = false \/
   is_set (TELEGRAM_CHAT_ID environ) = false ->
   main environ env w = (Exited 1, w)) /\
  (forall u,
     CAR_LISTING_URL environ = Some u ->
     is_set (CAR_LISTING_URL environ) = true ->
     is_set (TELEGRAM_BOT_TOKEN environ) = true ->
     is_set (TELEGRAM_CHAT_ID environ) = true ->
     main environ env w =
     (Ran (negb (string_contains "yad2.co.il" u)) (fst (invoke u env w)),
      snd (invoke u env w))).
Proof.
  unfold main. split.
  - intros [H|[H|H]]; rewrite H; rewrite ?andb_false_r; reflexivity.
  - intros u Hu H1 H2 H3. rewrite H1, H2, H3, Hu. cbn [andb].
    destruct (invoke u env w). reflexivity.
Qed.

End Series.

(** ** The further properties on sample runs, with the ASCII tables *)

Lemma ascii_tables_decimal : decimal_tables ascii_tables.
Proof.
  intros c d. cbn. unfold ascii_to_decimal.
  destruct (N.leb_spec 48 c); destruct (N.leb_spec c 57); cbn;
    intros [= <-]; lia.
Qed.

Lemma re_search_counter_sound_witness :
  exists before spaces keyword after,
    sample_source = before ++ py "77" ++ spaces ++ keyword ++ after /\
    (1 <= List.length (py "77") <= 6)%nat /\
    forallb (re_digit (U := ascii_tables)) (py "77") = true /\
    forallb (isspace (Unicode := ascii_tables)) spaces = true /\
    In keyword keywords.
Proof.
  apply (re_search_counter_sound (U := ascii_tables) sample_source (py "77")).
  reflexivity.
Defined.

Lemma source_total_below_million_witness : 0 <= 77 < 1000000.
Proof.
  apply (source_total_below_million (U := ascii_tables)
           (sample_source_driver sample_source) 77 ascii_tables_decimal).
  reflexivity.
Defined.

Lemma total_never_negative_witness : 0 <= 12.
Proof.
  apply (total_never_negative (U := ascii_tables)
           (Some (sample_driver (py "12 cars"))) (sample_env 0 (py "12 cars"))
           12 ascii_tables_decimal).
  left. reflexivity.
Defined.

Lemma scan_failure_skips_fallbacks_witness :
  get_total_results (U := ascii_tables) (Some (sample_stale_driver sample_source))
  = None /\
  get_total_results (U := ascii_tables) (Some (sample_source_driver sample_source))
  = Some 77.
Proof.
  split; [|reflexivity].
  apply (scan_failure_skips_fallbacks (U := ascii_tables)
           (sample_stale_driver sample_source) (py "WebDriverException")).
  right. split; [reflexivity|]. left. reflexivity.
Defined.

Lemma candidate_failure_falls_back_witness :
  get_total_results (U := ascii_tables)
    (Some {| driver_implicitly_wait := Ok tt;
             driver_get := Ok tt;
             driver_wait := fun _ _ => Raise (py "TimeoutException");
             driver_find_elements := fun _ xpath =>
               if String.eqb xpath candidates_xpath
               then Raise (py "WebDriverException") else Ok [];
             driver_page_source := Ok sample_source |})
  = Some 77.
Proof.
  erewrite (candidate_failure_falls_back (U := ascii_tables) _ None
              (py "WebDriverException")); try reflexivity.
  left. reflexivity.
Defined.

Lemma setup_failure_reported_witness :
  posted (run_events (U := ascii_tables) sample_url
            (with_chrome (Raise (py "chrome not reachable")) (sample_env 0 []))
            (sample_world (sample_state 10 [])))
  = [ErrorReport (py "chrome not reachable")].
Proof.
  apply (setup_failure_reported (U := ascii_tables) sample_url
           (with_chrome (Raise (py "chrome not reachable")) (sample_env 0 []))
           (sample_world (sample_state 10 []))
           (py "chrome not reachable")).
  left. reflexivity.
Defined.

Lemma rerun_is_quiet_witness :
  let w1 := snd (invoke (U := ascii_tables) sample_url
                   (sample_env 0 (py "12 cars"))
                   (sample_world (sample_state 10 []))) in
  stored_total w1 = 12 /\
  saved (run_events (U := ascii_tables) sample_url
           (sample_env 20 (py "12 cars")) w1) = [].
Proof.
  destruct (rerun_is_quiet (U := ascii_tables) sample_url
              (sample_env 0 (py "12 cars")) (sample_env 20 (py "12 cars"))
              (sample_world (sample_state 10 [])) 12)
    as (Hst & Hsaved & _); try reflexivity; [discriminate|].
  split; [exact Hst|exact Hsaved].
Defined.

Lemma zero_total_reinitializes_witness :
  let envs := [sample_env 0 (py "0 cars");
               with_disk OpenFails (sample_env 20 (py "0 cars"));
               sample_env 40 (py "0 cars")] in
  stored_total
    (invocations (U := ascii_tables) sample_url envs
       (sample_world (sample_state 0 []))) = 0 /\
  series_posted (U := ascii_tables) sample_url envs
    (sample_world (sample_state 0 []))
  = repeat (Welcome 0 sample_url) 3.
Proof.
  destruct (zero_total_reinitializes (U := ascii_tables) sample_url
              [sample_env 0 (py "0 cars");
               with_disk OpenFails (sample_env 20 (py "0 cars"));
               sample_env 40 (py "0 cars")]
              (sample_world (sample_state 0 [])))
    as (Hzero & Hposted & _).
  - reflexivity.
  - repeat constructor.
  - split; [exact Hzero|exact Hposted].
Defined.

Lemma failed_dump_resets_witness :
  let w1 := snd (invoke (U := ascii_tables) sample_url
                   (with_disk DumpFails (sample_env 0 (py "12 cars")))
                   (sample_world (sample_state 10 [sample_entry 10]))) in
  load_data (storage w1) = default_state /\
  posted (run_events (U := ascii_tables) sample_url
            (sample_env 20 (py "12 cars")) w1)
  = [Welcome 12 sample_url].
Proof.
  destruct (failed_dump_resets (U := ascii_tables) sample_url
              (with_disk DumpFails (sample_env 0 (py "12 cars")))
              (sample_env 20 (py "12 cars"))
              (sample_world (sample_state 10 [sample_entry 10])) 12 12)
    as (_ & Hload & Hposted); try reflexivity.
  - right. discriminate.
  - split; [exact Hload|exact Hposted].
Defined.

Lemma unwritable_file_renotifies_witness :
  let w1 := snd (invoke (U := ascii_tables) sample_url
                   (with_disk OpenFails (sample_env 0 (py "12 cars")))
                   (sample_world (sample_state 10 []))) in
  exists header section time,
    posted (run_events (U := ascii_tables) sample_url
              (sample_env 20 (py "12 cars")) w1)
    = [ChangeNotification header 12 2 sample_url section time].
Proof.
  apply (unwritable_file_renotifies (U := ascii_tables) sample_url
           (with_disk OpenFails (sample_env 0 (py "12 cars")))
           (sample_env 20 (py "12 cars"))
           (sample_world (sample_state 10 [])) 12);
    try reflexivity; discriminate.
Defined.

Lemma changes_add_up_witness :
  let w' := invocations (U := ascii_tables) sample_url (alternating_envs 5)
              (sample_world (sample_state 6 [sample_entry 6])) in
  stored_total w' = 6 + sum_changes (last_n 5 (history (load_data (storage w')))).
Proof.
  apply (changes_add_up (U := ascii_tables) sample_url (alternating_envs 5)
           (sample_world (sample_state 6 [sample_entry 6]))).
  - vm_compute. reflexivity.
  - apply Nat.leb_le. reflexivity.
Defined.

Lemma stored_total_never_negative_witness :
  0 <= stored_total
         (invocations (U := ascii_tables) sample_url (alternating_envs 3)
            (sample_world (sample_state 6 []))).
Proof.
  apply (stored_total_never_negative (U := ascii_tables) sample_url
           (alternating_envs 3) ascii_tables_decimal
           (sample_world (sample_state 6 []))).
  discriminate.
Defined.

Lemma status_repeats_every_run_witness :
  let w := sample_world (sample_state 12 (repeat (sample_entry 12) 50)) in
  let envs := [sample_env 0 (py "12 cars"); sample_env 20 (py "12 cars");
               sample_env 40 (py "12 cars")] in
  List.length (series_posted (U := ascii_tables) sample_url envs w) = 3%nat /\
  Forall (fun m => is_status_update m = true)
         (series_posted (U := ascii_tables) sample_url envs w).
Proof.
  destruct (status_repeats_every_run (U := ascii_tables) sample_url
              [sample_env 0 (py "12 cars"); sample_env 20 (py "12 cars");
               sample_env 40 (py "12 cars")] 1
              (sample_world (sample_state 12 (repeat (sample_entry 12) 50))))
    as (_ & Hlen & Hall).
  - discriminate.
  - lia.
  - reflexivity.
  - repeat constructor.
  - split; [exact Hlen|exact Hall].
Defined.

Lemma main_requires_config_witness :
  main (U := ascii_tables)
    {| CAR_LISTING_URL := Some sample_url;
       TELEGRAM_BOT_TOKEN := Some EmptyString;
       TELEGRAM_CHAT_ID := Some "42"%string;
       STORAGE_FILE := None |}
    (sample_env 0 (py "12 cars")) (sample_world (sample_state 10 []))
  = (Exited 1, sample_world (sample_state 10 [])) /\
  snd (main (U := ascii_tables) sample_environ
         (sample_env 0 (py "12 cars")) (sample_world (sample_state 10 [])))
  = snd (invoke (U := ascii_tables) sample_url
           (sample_env 0 (py "12 cars")) (sample_world (sample_state 10 []))).
Proof.
  split.
  - apply (main_requires_config (U := ascii_tables)).
    right. left. reflexivity.
  - rewrite (proj2 (main_requires_config (U := ascii_tables) sample_environ
                      (sample_env 0 (py "12 cars"))
                      (sample_world (sample_state 10 [])))
               sample_url); reflexivity.
Defined.

(** A listing page with seven feed items: five cars are read, three are
    listed in the notification, each numbered in its title line. *)
Example feed_of_seven :
  let cars := get_new_listings (U := ascii_tables)
                (Some (sample_feed_driver (py "12 cars") 7)) in
  (List.length cars,
   map (fun car => List.length (car_details car)) cars,
   option_map (map (fun line => option_map fst (line_title line)))
     (cars_section
        (fst (format_notification (sample_env 0 (py "12 cars"))
                (idle sample_url (sample_state 10 [])) 10 12 cars
                (sample_world (sample_state 10 []))))))
  = (5%nat, [300; 300; 300; 300; 300]%nat,
     Some [Some 1; Some 2; Some 3]%nat).
Proof. vm_compute. reflexivity. Qed.

(** A car without a title is printed without a number; the next one keeps
    its position. *)
Example untitled_car_has_no_number :
  let untitled := {| car_title := None; car_price := Some (py "45000");
                     car_link := None; car_details := py "45000" |} in
  let titled := {| car_title := Some (py "B"); car_price := None;
                   car_link := None; car_details := py "B" |} in
  option_map (map line_title)
    (cars_section
       (fst (format_notification (sample_env 0 (py "12 cars"))
               (idle sample_url (sample_state 10 [])) 10 12 [untitled; titled]
               (sample_world (sample_state 10 [])))))
  = Some [None; Some (2%nat, py "B")].
Proof. vm_compute. reflexivity. Qed.
